(** * AI voice detection service: a shallow embedding of the inference pipeline

    The development follows the Python sources module by module:
    - [Py]: the fragment of Python the sources rely on (exceptions, [str]
      methods, [urllib.parse.urlparse]);
    - [Validation]: [utils/validation.py];
    - [AudioUtils]: [utils/audio_utils.py];
    - [FeatureExtractor]: [utils/feature_extractor.py];
    - [Classifier]: [model/classifier.py];
    - [Inference]: [model/inference.py];
    - [Api]: the [/predict] route of [app/api.py].

    Conventions.
    - A Python [str] is a [string] of ASCII characters.
    - A call that may raise returns a [result]; code that touches the file
      system or the network threads an explicit state.
    - A Python [float] (the classifier's confidence, the feature values) is a
      binary64 [float]; waveform samples are exact rationals ([Q]), so the
      peak normalisation is studied without rounding.
    - Third-party libraries (requests, librosa, numpy, scikit-learn, joblib)
      are interfaces, given as type classes; every theorem holds for all of
      their implementations unless it states an assumption on them. *)

From Stdlib Require Import ZArith NArith QArith Qabs Qminmax Floats String Ascii List Lia.
From stdpp Require Import base option list strings gmap pretty.

(* The decimal literals 0.85 and 0.65 are not binary64 values; they denote
   the nearest ones, as they do in Python. *)
Set Warnings "-inexact-float".

(* ===================================================================== *)
(** * Part I: the embedding                                               *)
(* ===================================================================== *)

Module Py.

(** ** Exceptions *)

(** The exception classes the sources raise or catch; [str(e)] is the
    message. [RequestException] stands for [requests.RequestException] and
    its subclasses, [OtherException] for any other [Exception]. *)
Inductive exn : Type :=
| AudioDownloadError (msg : string)
| ValidationError (msg : string)
| RequestException (msg : string)
| RuntimeError (msg : string)
| FileNotFoundError (msg : string)
| ValueError (msg : string)
| IndexError (msg : string)
| OtherException (msg : string).

Definition str (e : exn) : string :=
  match e with
  | AudioDownloadError m | ValidationError m | RequestException m
  | RuntimeError m | FileNotFoundError m | ValueError m
  | IndexError m | OtherException m => m
  end.

Inductive result (A : Type) : Type :=
| Ok (a : A)
| Raise (e : exn).
Arguments Ok {A} a.
Arguments Raise {A} e.

Definition bind {A B} (r : result A) (k : A -> result B) : result B :=
  match r with
  | Ok a => k a
  | Raise e => Raise e
  end.

Definition raised {A} (r : result A) : bool :=
  match r with Ok _ => false | Raise _ => true end.

(** ** Strings *)

(** Truthiness of a [str]: non-empty. *)
Definition truthy (s : string) : bool :=
  match s with EmptyString => false | String _ _ => true end.

(** [s.startswith(p)]. *)
Definition startswith (s p : string) : bool := String.prefix p s.

(** [sub in s]. *)
Fixpoint contains (sub s : string) : bool :=
  String.prefix sub s ||
  match s with
  | EmptyString => false
  | String _ s' => contains sub s'
  end.

Definition is_upper (c : ascii) : bool :=
  let n := nat_of_ascii c in (65 <=? n)%nat && (n <=? 90)%nat.
Definition is_lower (c : ascii) : bool :=
  let n := nat_of_ascii c in (97 <=? n)%nat && (n <=? 122)%nat.
Definition is_digit (c : ascii) : bool :=
  let n := nat_of_ascii c in (48 <=? n)%nat && (n <=? 57)%nat.
Definition isalpha (c : ascii) : bool := is_upper c || is_lower c.

Definition lower_char (c : ascii) : ascii :=
  if is_upper c then ascii_of_nat (nat_of_ascii c + 32) else c.

(** [s.lower()]. *)
Fixpoint lower (s : string) : string :=
  match s with
  | EmptyString => EmptyString
  | String c s' => String (lower_char c) (lower s')
  end.

(** [s.find(c)] for a one-character [c]; [None] stands for [-1]. *)
Fixpoint find (c : ascii) (s : string) : option nat :=
  match s with
  | EmptyString => None
  | String d s' => if Ascii.eqb c d then Some 0%nat else S <$> find c s'
  end.

Fixpoint take (n : nat) (s : string) : string :=
  match n, s with
  | S n', String c s' => String c (take n' s')
  | _, _ => EmptyString
  end.

Fixpoint drop (n : nat) (s : string) : string :=
  match n, s with
  | S n', String _ s' => drop n' s'
  | _, _ => s
  end.

Fixpoint all_chars (p : ascii -> bool) (s : string) : bool :=
  match s with
  | EmptyString => true
  | String c s' => p c && all_chars p s'
  end.

Fixpoint remove_chars (p : ascii -> bool) (s : string) : string :=
  match s with
  | EmptyString => EmptyString
  | String c s' => if p c then remove_chars p s' else String c (remove_chars p s')
  end.

Fixpoint lstrip (p : ascii -> bool) (s : string) : string :=
  match s with
  | String c s' => if p c then lstrip p s' else s
  | EmptyString => EmptyString
  end.

(** The prefix of [s] before the first character satisfying [p]. *)
Fixpoint take_until (p : ascii -> bool) (s : string) : string :=
  match s with
  | EmptyString => EmptyString
  | String c s' => if p c then EmptyString else String c (take_until p s')
  end.

(** ** [urllib.parse.urlparse]

    The standard library's parser, restricted to the two components the
    sources read ([scheme] and [netloc]). It follows [urlsplit]: leading C0
    control characters and spaces are stripped, tab and newline characters
    removed, a scheme is split off at the first [:] when everything before it
    is a scheme character and the first character is a letter, and the
    network location runs from [//] to the first of [/], [?], [#]. A
    bracket without its partner raises [ValueError]. The validation of a
    bracketed IPv6 host and of the Unicode normal form of the host are not
    modelled. *)

Record ParseResult : Type := { scheme : string; netloc : string }.

Definition scheme_chars (c : ascii) : bool :=
  isalpha c || is_digit c ||
  Ascii.eqb c "+"%char || Ascii.eqb c "-"%char || Ascii.eqb c "."%char.

Definition c0_control_or_space (c : ascii) : bool := (nat_of_ascii c <=? 32)%nat.

Definition unsafe_url_byte (c : ascii) : bool :=
  Ascii.eqb c "009"%char || Ascii.eqb c "010"%char || Ascii.eqb c "013"%char.

Definition netloc_delim (c : ascii) : bool :=
  Ascii.eqb c "/"%char || Ascii.eqb c "?"%char || Ascii.eqb c "#"%char.

Definition split_scheme (url : string) : string * string :=
  match find ":"%char url, url with
  | Some (S i), String c0 _ =>
      if isalpha c0 && all_chars scheme_chars (take (S i) url)
      then (lower (take (S i) url), drop (S (S i)) url)
      else (EmptyString, url)
  | _, _ => (EmptyString, url)
  end.

Definition urlparse (url : string) : result ParseResult :=
  let url := lstrip c0_control_or_space url in
  let url := remove_chars unsafe_url_byte url in
  let '(scheme, url) := split_scheme url in
  if String.eqb (take 2 url) "//" then
    let netloc := take_until netloc_delim (drop 2 url) in
    if (contains "[" netloc && negb (contains "]" netloc))
       || (contains "]" netloc && negb (contains "[" netloc))
    then Raise (ValueError "Invalid IPv6 URL")
    else Ok {| scheme := scheme; netloc := netloc |}
  else Ok {| scheme := scheme; netloc := EmptyString |}.


(** [s[:n]] for an [int] [n]: a negative [n] counts from the end. *)
Definition slice_to (s : string) (n : Z) : string :=
  if (0 <=? n)%Z then take (Z.to_nat n) s
  else take (Z.to_nat (Z.of_nat (String.length s) + n)) s.


End Py.

Import Py.

(** [result] is a monad: [x ← r; k] runs [k] when [r] returned and
    propagates the exception otherwise. *)
#[global] Instance result_ret : MRet result := @Ok.
#[global] Instance result_bind : MBind result := fun A B k r => bind r k.

(* --------------------------------------------------------------------- *)
(** ** utils/validation.py                                                *)
(* --------------------------------------------------------------------- *)

Module Validation.

Definition dangerous_patterns : list string :=
  [ "localhost"; "127.0.0.1"; "0.0.0.0"; "192.168."; "10."; "172.16.";
    "file://"; "ftp://" ].

(** The loop over [dangerous_patterns]: raise at the first pattern found
    in [url_lower]. *)
Fixpoint check_patterns (patterns : list string) (url_lower : string) : result unit :=
  match patterns with
  | [] => Ok tt
  | pattern :: rest =>
      if contains pattern url_lower
      then Raise (ValidationError "Security: Cannot access local/internal resources")
      else check_patterns rest url_lower
  end.

(** The body of the [try] of [validate_url]. *)
Definition check_format (url : string) : result unit :=
  result ← urlparse url;
   if negb (truthy (scheme result) && truthy (netloc result))
   then Raise (ValidationError "Invalid URL format")
   else if negb (bool_decide (scheme result ∈ ["http"; "https"]))
   then Raise (ValidationError "URL must use HTTP or HTTPS protocol")
   else Ok tt.

(** [InputValidator.validate_url]. *)
Definition validate_url (url : string) : result bool :=
  if negb (truthy url) then Raise (ValidationError "URL must be a non-empty string")
  else
    match check_format url with
    | Raise e => Raise (ValidationError ("Invalid URL: " +:+ str e))
    | Ok _ =>
        match check_patterns dangerous_patterns (lower url) with
        | Raise e => Raise e
        | Ok _ => Ok true
        end
    end.

(** [LanguageDetector.detect_language]. *)
Definition detect_language (audio_path : string) : string :=
  let path_lower := lower audio_path in
  if existsb (fun indicator => contains indicator path_lower) ["hindi"; "hi_"; "_hi"; "hin"]
  then "Hindi"
  else if existsb (fun indicator => contains indicator path_lower) ["english"; "en_"; "_en"; "eng"]
  then "English"
  else "Unknown".

(** The characters [sanitize_string] removes: the class [[\x00-\x1F\x7F]]. *)
Definition is_control (c : ascii) : bool :=
  (nat_of_ascii c <=? 31)%nat || (nat_of_ascii c =? 127)%nat.

(** [sanitize_string]. *)
Definition sanitize_string (input_str : string) (max_length : Z) : string :=
  if negb (truthy input_str) then ""
  else
    let sanitized := slice_to input_str max_length in
    let sanitized := remove_chars is_control sanitized in
    sanitized.

(** [LanguageDetector.HINDI_RANGE], the Devanagari block. *)
Definition HINDI_RANGE : Z * Z := (0x0900, 0x097F)%Z.

(** [char.isalpha() and ord(char) < 128] on a code point: below 128 the
    alphabetic characters are the 52 ASCII letters. *)
Definition is_ascii_letter (cp : Z) : bool :=
  (cp <? 128)%Z && ((65 <=? cp)%Z && (cp <=? 90)%Z || (97 <=? cp)%Z && (cp <=? 122)%Z).

Definition in_hindi_range (cp : Z) : bool :=
  (HINDI_RANGE.1 <=? cp)%Z && (cp <=? HINDI_RANGE.2)%Z.

(** [LanguageDetector.detect_from_text], on the code points of the text.
    The ratio is an exact rational. *)
Definition detect_from_text (text : list Z) : string :=
  match text with
  | [] => "Unknown"
  | _ =>
      let hindi_chars := length (filter (fun cp => in_hindi_range cp = true) text) in
      let english_chars := length (filter (fun cp => is_ascii_letter cp = true) text) in
      let total_chars := (hindi_chars + english_chars)%nat in
      if (total_chars =? 0)%nat then "Unknown"
      else
        let hindi_ratio := (inject_Z (Z.of_nat hindi_chars) / inject_Z (Z.of_nat total_chars))%Q in
        if negb (Qle_bool hindi_ratio 0.3) then "Hindi"
        else if (hindi_chars <? english_chars)%nat then "English"
        else "Unknown"
  end.

End Validation.

(* --------------------------------------------------------------------- *)
(** ** utils/audio_utils.py                                               *)
(* --------------------------------------------------------------------- *)

Module AudioUtils.

(** *** The network and the file system *)

(** What [response.iter_content] yields next: a chunk of bytes, of which the
    code reads only the length, or a [requests] exception raised while the
    body is being received. *)
Inductive stream_event : Type :=
| Chunk (len : N)
| Broken (msg : string).

(** An HTTP response opened with [stream=True]: the body has not been read
    yet. [status_error] is the message of the [HTTPError] that
    [raise_for_status] raises, if any. *)
Record response : Type := {
  status_error : option string;
  content_type : string;
  body : list stream_event;
}.

(** The operating system as one request sees it: the scratch files with
    the number of bytes written to each, and the URLs fetched so far (most
    recent first). *)
Record os_state : Type := {
  files : gmap string N;
  fetched : list string;
}.

(** The collaborators of one request: the remote server, the name chosen
    for the scratch file (a hash of the URL and the clock) and the decoder. *)
Class Externals : Type := {
  (** [requests.get(url, stream=True, timeout=30, headers=...)]. *)
  requests_get : string -> result response;
  (** [os.path.join(temp_dir, f"audio_{md5(url + time)}.tmp")]. *)
  temp_file_name : string -> string;
  (** [librosa.load(path, sr=16000, mono=True, duration=60)]. *)
  librosa_load : string -> Z -> result (list Q * Z);
}.

Definition MAX_FILE_SIZE : N := 50 * 1024 * 1024.
Definition DOWNLOAD_TIMEOUT : N := 30.
Definition TARGET_SAMPLE_RATE : Z := 16000.

Definition raise_for_status (r : response) : result unit :=
  match status_error r with
  | Some msg => Raise (RequestException msg)
  | None => Ok tt
  end.

Definition os_remove (path : string) (st : os_state) : os_state :=
  {| files := delete path (files st); fetched := fetched st |}.

(** [open(path, 'wb')]: the file exists and is empty. *)
Definition open_wb (path : string) (st : os_state) : os_state :=
  {| files := <[path := 0%N]> (files st); fetched := fetched st |}.

(** [f.write(chunk)] on the file opened at [path]. Once the name has been
    unlinked the bytes go to a file no name reaches. *)
Definition write (path : string) (len : N) (st : os_state) : os_state :=
  {| files := alter (N.add len) path (files st); fetched := fetched st |}.

Definition record_fetch (url : string) (st : os_state) : os_state :=
  {| files := files st; fetched := url :: fetched st |}.

(** The [for chunk in response.iter_content(...)] loop, with [total_size]
    as accumulator; it returns the final [total_size]. *)
Fixpoint receive (temp_path : string) (events : list stream_event) (total_size : N)
    (st : os_state) : result N * os_state :=
  match events with
  | [] => (Ok total_size, st)
  | Broken msg :: _ => (Raise (RequestException msg), st)
  | Chunk len :: rest =>
      if (0 <? len)%N then
        let total_size := (total_size + len)%N in
        if (MAX_FILE_SIZE <? total_size)%N then
          (Raise (AudioDownloadError "File too large: exceeds 50.0MB limit"),
           os_remove temp_path st)
        else receive temp_path rest total_size (write temp_path len st)
      else receive temp_path rest total_size st
  end.

(** The body of the [try] of [download_audio]. *)
Definition fetch_to_temp `{Externals} (url : string) (st : os_state)
    : result string * os_state :=
  let temp_path := temp_file_name url in
  let st := record_fetch url st in
  match requests_get url with
  | Raise e => (Raise e, st)
  | Ok response =>
      match raise_for_status response with
      | Raise e => (Raise e, st)
      | Ok _ =>
          (* the content type is read and never rejected *)
          let _ := lower (content_type response) in
          let '(r, st) := receive temp_path (body response) 0 (open_wb temp_path st) in
          match r with
          | Raise e => (Raise e, st)
          | Ok total_size =>
              if (total_size =? 0)%N then
                (Raise (AudioDownloadError "Downloaded file is empty"),
                 os_remove temp_path st)
              else (Ok temp_path, st)
          end
      end
  end.

(** [AudioProcessor.download_audio]. *)
Definition download_audio `{Externals} (url : string) (st : os_state)
    : result string * os_state :=
  if negb (startswith url "http://" || startswith url "https://") then
    (Raise (AudioDownloadError "Invalid URL: must use http or https protocol"), st)
  else
    let '(r, st) := fetch_to_temp url st in
    match r with
    | Ok temp_path => (Ok temp_path, st)
    | Raise (RequestException msg) =>
        (Raise (AudioDownloadError ("Download failed: " +:+ msg)), st)
    | Raise e =>
        (Raise (AudioDownloadError ("Unexpected error during download: " +:+ str e)), st)
    end.

(** *** Decoding and normalisation *)

Definition Qlt_bool (x y : Q) : bool := negb (Qle_bool y x).

(** [np.abs(audio).max()]; numpy raises on an empty array. *)
Definition abs_max (audio : list Q) : result Q :=
  match audio with
  | [] => Raise (ValueError
            "zero-size array to reduction operation maximum which has no identity")
  | x :: rest => Ok (fold_left Qmax (map Qabs rest) (Qabs x))
  end.

(** [AudioProcessor._normalize_audio]. *)
Definition _normalize_audio (audio : list Q) : result (list Q) :=
  max_val ← abs_max audio;
  if Qlt_bool 0 max_val
  then Ok (map (fun x => x / max_val)%Q audio)
  else Ok audio.

(** The body of the [try] of [load_and_preprocess]. *)
Definition decode_and_check `{Externals} (file_path : string) : result (list Q * Z) :=
  '(audio, sr) ← librosa_load file_path TARGET_SAMPLE_RATE;
  if (length audio =? 0)%nat then
    Raise (AudioDownloadError "Audio file is empty or corrupted")
  else if Qlt_bool (inject_Z (Z.of_nat (length audio))) (inject_Z sr * 0.5)%Q then
    Raise (AudioDownloadError "Audio too short: minimum 0.5 seconds required")
  else
    audio ← _normalize_audio audio;
    Ok (audio, sr).

(** [AudioProcessor.load_and_preprocess]. *)
Definition load_and_preprocess `{Externals} (file_path : string) : result (list Q * Z) :=
  match decode_and_check file_path with
  | Ok r => Ok r
  | Raise e => Raise (AudioDownloadError ("Failed to load audio: " +:+ str e))
  end.

(** [AudioProcessor.cleanup]: the file is removed when it exists; a failure
    to remove it is swallowed by the source and not modelled. *)
Definition cleanup (file_path : string) (st : os_state) : os_state :=
  if bool_decide (is_Some (files st !! file_path))
  then os_remove file_path st
  else st.

(** [AudioProcessor.process_audio_from_url]. [temp_path] is still [None]
    when [download_audio] raises, so the handler cleans up only after a
    completed download. *)
Definition process_audio_from_url `{Externals} (url : string) (st : os_state)
    : result (list Q * Z * string) * os_state :=
  let '(r, st) := download_audio url st in
  match r with
  | Raise e => (Raise e, st)
  | Ok temp_path =>
      match load_and_preprocess temp_path with
      | Ok (audio, sr) => (Ok (audio, sr, temp_path), st)
      | Raise e =>
          (Raise e, if truthy temp_path then cleanup temp_path st else st)
      end
  end.


End AudioUtils.

(* --------------------------------------------------------------------- *)
(** ** utils/feature_extractor.py                                         *)
(* --------------------------------------------------------------------- *)

Module FeatureExtractor.

(** A feature matrix: one row per descriptor, one column per frame. *)
Definition matrix : Type := list (list float).

(** The [librosa.feature] routines and the numpy reductions the extractor
    calls. The reductions are taken on the rows librosa returns, which hold
    at least one frame. *)
Class SignalLib : Type := {
  (** [librosa.feature.mfcc(y, sr, n_mfcc, n_fft, hop_length)]. *)
  mfcc : list Q -> Z -> Z -> Z -> Z -> result matrix;
  (** [librosa.feature.spectral_centroid(y, sr, n_fft, hop_length)]. *)
  spectral_centroid : list Q -> Z -> Z -> Z -> result matrix;
  (** [librosa.feature.spectral_rolloff(y, sr, n_fft, hop_length)]. *)
  spectral_rolloff : list Q -> Z -> Z -> Z -> result matrix;
  (** [librosa.feature.zero_crossing_rate(y, frame_length, hop_length)]. *)
  zero_crossing_rate : list Q -> Z -> Z -> result matrix;
  (** [librosa.feature.spectral_bandwidth(y, sr, n_fft, hop_length)]. *)
  spectral_bandwidth : list Q -> Z -> Z -> Z -> result matrix;
  (** [librosa.feature.chroma_stft(y, sr, n_fft, hop_length)]. *)
  chroma_stft : list Q -> Z -> Z -> Z -> result matrix;
  np_mean : list float -> float;
  np_std : list float -> float;
  np_min : list float -> float;
  np_max : list float -> float;
}.

(** The attributes set by [FeatureExtractor.__init__]. *)
Record t : Type := {
  n_mfcc : Z;
  n_fft : Z;
  hop_length : Z;
  n_mels : Z;
}.

(** [FeatureExtractor()], with the defaults of [__init__]. *)
Definition default : t :=
  {| n_mfcc := 13; n_fft := 2048; hop_length := 512; n_mels := 128 |}.

(** The four statistics of one row, in the order the source appends them. *)
Definition row_statistics `{SignalLib} (row : list float) : list float :=
  [np_mean row; np_std row; np_min row; np_max row].

(** [FeatureExtractor._compute_statistics]. *)
Fixpoint _compute_statistics `{SignalLib} (feature_matrix : matrix) : list float :=
  match feature_matrix with
  | [] => []
  | row :: rest => row_statistics row ++ _compute_statistics rest
  end.

(** [FeatureExtractor.extract_features]. *)
Definition extract_features `{SignalLib} (self : t) (audio : list Q) (sr : Z)
    : result (list float) :=
  let features := [] in
  m ← mfcc audio sr (n_mfcc self) (n_fft self) (hop_length self);
  let features := features ++ _compute_statistics m in
  centroid ← spectral_centroid audio sr (n_fft self) (hop_length self);
  let features := features ++ _compute_statistics centroid in
  rolloff ← spectral_rolloff audio sr (n_fft self) (hop_length self);
  let features := features ++ _compute_statistics rolloff in
  zcr ← zero_crossing_rate audio (n_fft self) (hop_length self);
  let features := features ++ _compute_statistics zcr in
  bandwidth ← spectral_bandwidth audio sr (n_fft self) (hop_length self);
  let features := features ++ _compute_statistics bandwidth in
  chroma ← chroma_stft audio sr (n_fft self) (hop_length self);
  let features := features ++ _compute_statistics chroma in
  Ok features.

(** [range(n)]. *)
Definition range (n : Z) : list nat := seq 0 (Z.to_nat n).

(** The four names appended for one row called [base]. *)
Definition stat_names (base : string) : list string :=
  [base +:+ "_mean"; base +:+ "_std"; base +:+ "_min"; base +:+ "_max"].

(** [FeatureExtractor.get_feature_names]. *)
Definition get_feature_names (self : t) : list string :=
  let names := [] in
  let names := names ++ flat_map (fun i => stat_names ("mfcc_" +:+ pretty i)) (range (n_mfcc self)) in
  let names := names ++ flat_map (fun feature_name => stat_names feature_name)
      ["spectral_centroid"; "spectral_rolloff"; "zero_crossing_rate"; "spectral_bandwidth"] in
  let names := names ++ flat_map (fun i => stat_names ("chroma_" +:+ pretty i)) (range 12) in
  names.

(** [librosa.load(file_path, sr=sr, mono=True)], the call of
    [extract_batch_features]: the whole file, with no limit on the duration. *)
Class FileLoader : Type := {
  librosa_load_file : string -> Z -> result (list Q * Z);
}.

(** The [try] of the loop of [extract_batch_features], for one file. *)
Definition load_and_extract `{SignalLib} `{FileLoader} (self : t)
    (file_path : string) (sr : Z) : result (list float) :=
  '(audio, _) ← librosa_load_file file_path sr;
  extract_features self audio sr.

(** [FeatureExtractor.extract_batch_features]: a file that fails is
    reported on the console and skipped. *)
Fixpoint extract_batch_features `{SignalLib} `{FileLoader} (self : t)
    (audio_files : list string) (sr : Z) : list (list float) :=
  match audio_files with
  | [] => []
  | file_path :: rest =>
      match load_and_extract self file_path sr with
      | Ok features => features :: extract_batch_features self rest sr
      | Raise _ => extract_batch_features self rest sr
      end
  end.

End FeatureExtractor.

(* --------------------------------------------------------------------- *)
(** ** model/classifier.py                                                *)
(* --------------------------------------------------------------------- *)

Module Classifier.

(** scikit-learn's random forest: the type of estimators, the constructor
    and the two prediction methods, each on a batch of feature vectors. *)
Class Sklearn : Type := {
  Forest : Type;
  (** [RandomForestClassifier(n_estimators, max_depth, min_samples_split,
      random_state, n_jobs=-1, class_weight='balanced')], not fitted. *)
  RandomForestClassifier : Z -> Z -> Z -> Z -> Forest;
  (** [model.predict(X)]: one class per row of [X]. *)
  forest_predict : Forest -> list (list float) -> result (list nat);
  (** [model.predict_proba(X)]: one probability vector per row of [X]. *)
  forest_predict_proba : Forest -> list (list float) -> result (list (list float));
}.

(** The attributes of a [VoiceClassifier]. *)
Record t `{Sklearn} : Type := {
  model : Forest;
  feature_names : option (list string);
  class_names : list string;
  trained : bool;
}.

(** The dictionary [save_model] serialises, with its four keys. *)
Record model_data `{Sklearn} : Type := {
  data_model : Forest;
  data_feature_names : option (list string);
  data_class_names : list string;
  data_trained : bool;
}.

(** joblib: what [dump] writes to a file and what [load] reads back. *)
Class Joblib `{Sklearn} : Type := {
  blob : Type;
  joblib_dump : model_data -> blob;
  joblib_load : blob -> result model_data;
}.

(** [VoiceClassifier()], with the defaults of [__init__]. *)
Definition new `{Sklearn} : t :=
  {| model := RandomForestClassifier 120 12 4 42;
     feature_names := None;
     class_names := ["HUMAN"; "AI_GENERATED"];
     trained := false |}.

(** [xs[i]] on a list. *)
Definition index {A} (xs : list A) (i : nat) : result A :=
  match xs !! i with
  | Some x => Ok x
  | None => Raise (IndexError "index out of range")
  end.

(** [VoiceClassifier.predict], on a one-dimensional feature vector. *)
Definition predict `{Sklearn} (self : t) (features : list float) : result (string * float) :=
  if negb (trained self) then
    Raise (RuntimeError "Model not trained. Load a trained model first.")
  else
    let features := [features] in
    predictions ← forest_predict (model self) features;
    prediction ← index predictions 0;
    all_probabilities ← forest_predict_proba (model self) features;
    probabilities ← index all_probabilities 0;
    label ← index (class_names self) prediction;
    confidence ← index probabilities prediction;
    Ok (label, confidence).

(** [VoiceClassifier.save_model], on a disk of serialised artifacts. *)
Definition save_model `{Joblib} (self : t) (model_path : string)
    (disk : gmap string blob) : result unit * gmap string blob :=
  if negb (trained self) then
    (Raise (RuntimeError "Cannot save untrained model"), disk)
  else
    let data :=
      {| data_model := model self;
         data_feature_names := feature_names self;
         data_class_names := class_names self;
         data_trained := trained self |} in
    (Ok tt, <[model_path := joblib_dump data]> disk).

(** [VoiceClassifier.load_model]. *)
Definition load_model `{Joblib} (model_path : string) (disk : gmap string blob) : result t :=
  match disk !! model_path with
  | None => Raise (FileNotFoundError ("Model file not found: " +:+ model_path))
  | Some bytes =>
      data ← joblib_load bytes;
      let classifier := new in
      Ok {| model := data_model data;
            feature_names := data_feature_names data;
            class_names := data_class_names data;
            trained := data_trained data |}
  end.

End Classifier.

(* --------------------------------------------------------------------- *)
(** ** model/inference.py                                                 *)
(* --------------------------------------------------------------------- *)

Module Inference.

(** Python's built-in [round(x, ndigits)] on floats. *)
Class Builtins : Type := {
  round : float -> Z -> float;
}.

(** The attributes of an [InferenceEngine]; the audio processor carries no
    state of its own. *)
Record t `{Classifier.Sklearn} : Type := {
  model : Classifier.t;
  feature_extractor : FeatureExtractor.t;
}.

(** The dictionary [predict] returns, without [processing_time_ms], which
    is read off the wall clock. *)
Record prediction : Type := {
  label : string;
  confidence : float;
  language : string;
  fraud_risk_explanation : string;
  status : string;
}.

(** [InferenceEngine._generate_explanation]. *)
Definition _generate_explanation (label : string) (confidence : float) : string :=
  if String.eqb label "AI_GENERATED" then
    if (0.85 <? confidence)%float then
      "High confidence AI-generated voice detected. " +:+
      "Spectral patterns show synthetic characteristics. " +:+
      "Recommend additional verification for fraud prevention."
    else if (0.65 <? confidence)%float then
      "Likely AI-generated voice with moderate confidence. " +:+
      "Some synthetic markers detected. " +:+
      "Proceed with caution in sensitive contexts."
    else
      "Possible AI-generated voice with low confidence. " +:+
      "Mixed signals detected. " +:+
      "Consider secondary verification methods."
  else
    if (0.85 <? confidence)%float then
      "High confidence human voice detected. " +:+
      "Natural acoustic patterns consistent with human speech. " +:+
      "Low fraud risk based on audio analysis."
    else if (0.65 <? confidence)%float then
      "Likely human voice with moderate confidence. " +:+
      "Predominantly natural speech characteristics. " +:+
      "Standard verification recommended."
    else
      "Possible human voice with low confidence. " +:+
      "Ambiguous acoustic features. " +:+
      "Additional verification recommended for high-stakes decisions.".

(** The safety threshold of [predict]: the label after the [if] that
    follows the call to the classifier. *)
Definition safety_threshold (label : string) (confidence : float) : string :=
  if String.eqb label "AI_GENERATED" && (confidence <? 0.85)%float
  then "HUMAN"
  else label.

(** Steps 2 to 5 of [predict]: what runs between the return of
    [process_audio_from_url] and the [finally] clause. *)
Definition classify_and_explain
    `{FeatureExtractor.SignalLib} `{Classifier.Sklearn} `{Builtins}
    (self : t) (audio : list Q) (sr : Z) (temp_path : string) : result prediction :=
  features ← FeatureExtractor.extract_features (feature_extractor self) audio sr;
  '(label, confidence) ← Classifier.predict (model self) features;
  let label := safety_threshold label confidence in
  let language := Validation.detect_language temp_path in
  let fraud_explanation := _generate_explanation label confidence in
  Ok {| label := label;
        confidence := round confidence 4;
        language := language;
        fraud_risk_explanation := fraud_explanation;
        status := "success" |}.

(** [InferenceEngine.predict]. When [process_audio_from_url] raises,
    [temp_path] is still [None] and the [finally] clause removes nothing. *)
Definition predict
    `{AudioUtils.Externals} `{FeatureExtractor.SignalLib} `{Classifier.Sklearn} `{Builtins}
    (self : t) (audio_url : string) (st : AudioUtils.os_state)
    : result prediction * AudioUtils.os_state :=
  let '(r, st) := AudioUtils.process_audio_from_url audio_url st in
  match r with
  | Raise e => (Raise e, st)
  | Ok (audio, sr, temp_path) =>
      (classify_and_explain self audio sr temp_path,
       if truthy temp_path then AudioUtils.cleanup temp_path st else st)
  end.

End Inference.

(* --------------------------------------------------------------------- *)
(** ** app/api.py                                                         *)
(* --------------------------------------------------------------------- *)

Module Api.

(** What the [/predict] route answers: the prediction, or an HTTP error
    with its status code, error tag and detail. *)
Inductive http_response : Type :=
| Success (p : Inference.prediction)
| HTTPException (status_code : nat) (error : string) (detail : string).

(** The three [except] clauses of [predict_voice]. *)
Definition handle (e : exn) : http_response :=
  match e with
  | ValidationError msg => HTTPException 400 "ValidationError" msg
  | AudioDownloadError msg => HTTPException 400 "AudioDownloadError" msg
  | _ => HTTPException 500 "InternalServerError" ("Unexpected error: " +:+ str e)
  end.

(** [predict_voice], once the API key has been accepted and the engine
    obtained. *)
Definition predict_voice
    `{AudioUtils.Externals} `{FeatureExtractor.SignalLib} `{Classifier.Sklearn}
    `{Inference.Builtins}
    (engine : Inference.t) (audio_url : string) (st : AudioUtils.os_state)
    : http_response * AudioUtils.os_state :=
  match Validation.validate_url audio_url with
  | Raise e => (handle e, st)
  | Ok _ =>
      let '(r, st) := Inference.predict engine audio_url st in
      match r with
      | Ok result => (Success result, st)
      | Raise e => (handle e, st)
      end
  end.

End Api.

(* --------------------------------------------------------------------- *)
(** ** A concrete deployment                                              *)
(* --------------------------------------------------------------------- *)

(** Small implementations of the collaborators, on which the pipeline can
    be run: a server that sends a given sequence of events, a decoder that
    returns a constant signal of a given length, descriptors with one
    frame, a forest that votes for a fixed class with a fixed probability,
    and a codec that stores the dictionary as it is. *)
Module Scenario.

Definition temp_path : string := "/tmp/audio_0cc175b9c0f1b6a8.tmp".

Definition externals (events : list AudioUtils.stream_event) (samples : nat)
    : AudioUtils.Externals :=
  {| AudioUtils.requests_get := fun _ =>
       Ok {| AudioUtils.status_error := None;
             AudioUtils.content_type := "audio/wav";
             AudioUtils.body := events |};
     AudioUtils.temp_file_name := fun _ => temp_path;
     AudioUtils.librosa_load := fun _ sr => Ok (repeat (1 # 2)%Q samples, sr) |}.

Definition frames (rows : nat) : FeatureExtractor.matrix := repeat [0.25%float] rows.

Definition signal_lib : FeatureExtractor.SignalLib :=
  {| FeatureExtractor.mfcc := fun _ _ n _ _ => Ok (frames (Z.to_nat n));
     FeatureExtractor.spectral_centroid := fun _ _ _ _ => Ok (frames 1);
     FeatureExtractor.spectral_rolloff := fun _ _ _ _ => Ok (frames 1);
     FeatureExtractor.zero_crossing_rate := fun _ _ _ => Ok (frames 1);
     FeatureExtractor.spectral_bandwidth := fun _ _ _ _ => Ok (frames 1);
     FeatureExtractor.chroma_stft := fun _ _ _ _ => Ok (frames 12);
     FeatureExtractor.np_mean := fun row => hd 0%float row;
     FeatureExtractor.np_std := fun _ => 0%float;
     FeatureExtractor.np_min := fun row => hd 0%float row;
     FeatureExtractor.np_max := fun row => hd 0%float row |}.

(** A forest is the class it votes for and the share of the votes. *)
Definition sklearn : Classifier.Sklearn :=
  {| Classifier.Forest := nat * float;
     Classifier.RandomForestClassifier := fun _ _ _ _ => (0%nat, 1%float);
     Classifier.forest_predict := fun f X => Ok (map (fun _ => fst f) X);
     Classifier.forest_predict_proba := fun f X =>
       Ok (map (fun _ => match fst f with
                         | O => [snd f; (1 - snd f)%float]
                         | _ => [(1 - snd f)%float; snd f]
                         end) X) |}.

Definition joblib : @Classifier.Joblib sklearn :=
  {| Classifier.blob := @Classifier.model_data sklearn;
     Classifier.joblib_dump := fun data => data;
     Classifier.joblib_load := fun bytes => Ok bytes |}.

Definition builtins : Inference.Builtins :=
  {| Inference.round := fun x _ => x |}.

Definition classifier (class : nat) (share : float) : @Classifier.t sklearn :=
  {| Classifier.model := (class, share) : @Classifier.Forest sklearn;
     Classifier.feature_names := Some (FeatureExtractor.get_feature_names FeatureExtractor.default);
     Classifier.class_names := ["HUMAN"; "AI_GENERATED"];
     Classifier.trained := true |}.

Definition engine (class : nat) (share : float) : @Inference.t sklearn :=
  {| Inference.model := classifier class share;
     Inference.feature_extractor := FeatureExtractor.default |}.

Definition idle : AudioUtils.os_state :=
  {| AudioUtils.files := ∅; AudioUtils.fetched := [] |}.

Definition file_loader : FeatureExtractor.FileLoader :=
  {| FeatureExtractor.librosa_load_file := fun file_path sr =>
       if contains "corrupt" file_path
       then Raise (OtherException "could not decode")
       else Ok ([1 # 2; - (3 # 4); 0]%Q, sr) |}.

(** A server that cannot be reached. *)
Definition offline : AudioUtils.Externals :=
  {| AudioUtils.requests_get := fun _ => Raise (RequestException "Connection refused");
     AudioUtils.temp_file_name := fun _ => temp_path;
     AudioUtils.librosa_load := fun _ _ => Raise (OtherException "no such file") |}.

End Scenario.

(* --------------------------------------------------------------------- *)
(** ** Notions used to state the properties                               *)
(* --------------------------------------------------------------------- *)

Module Notions.

(** The number of bytes in a sequence of chunks. *)
Definition total_len (chunks : list N) : N := foldr N.add 0%N chunks.

(** The state once the chunks of [chunks] have been written to the file
    at [path], empty chunks being skipped. *)
Definition written (path : string) (chunks : list N) (st : AudioUtils.os_state)
    : AudioUtils.os_state :=
  foldl (fun st len => if (0 <? len)%N then AudioUtils.write path len st else st)
        st chunks.

(** The state in which [download_audio] starts receiving the body of the
    answer to [url]: the fetch is on record and the scratch file is open. *)
Definition receiving `{AudioUtils.Externals} (url : string) (st : AudioUtils.os_state)
    : AudioUtils.os_state :=
  AudioUtils.open_wb (AudioUtils.temp_file_name url) (AudioUtils.record_fetch url st).

(** The rows of the feature layout, as the specification lists them:
    13 MFCC rows, spectral centroid, spectral rolloff, zero-crossing rate,
    spectral bandwidth, 12 chroma bins. *)
Definition row_labels : list string :=
  map (fun i : nat => "mfcc_" +:+ pretty i) (seq 0 13) ++
  ["spectral_centroid"; "spectral_rolloff"; "zero_crossing_rate"; "spectral_bandwidth"] ++
  map (fun i : nat => "chroma_" +:+ pretty i) (seq 0 12).

(** The shapes librosa documents for the six descriptors: [n_mfcc] rows of
    MFCC, one row for each spectral descriptor, 12 chroma bins. *)
Definition documented_shapes `{FeatureExtractor.SignalLib} : Prop :=
  (forall audio sr n n_fft hop m,
     FeatureExtractor.mfcc audio sr n n_fft hop = Ok m -> length m = Z.to_nat n) /\
  (forall audio sr n_fft hop m,
     FeatureExtractor.spectral_centroid audio sr n_fft hop = Ok m -> length m = 1%nat) /\
  (forall audio sr n_fft hop m,
     FeatureExtractor.spectral_rolloff audio sr n_fft hop = Ok m -> length m = 1%nat) /\
  (forall audio n_fft hop m,
     FeatureExtractor.zero_crossing_rate audio n_fft hop = Ok m -> length m = 1%nat) /\
  (forall audio sr n_fft hop m,
     FeatureExtractor.spectral_bandwidth audio sr n_fft hop = Ok m -> length m = 1%nat) /\
  (forall audio sr n_fft hop m,
     FeatureExtractor.chroma_stft audio sr n_fft hop = Ok m -> length m = 12%nat).


(** The six explanations of [_generate_explanation]. *)
Definition ai_high : string :=
  "High confidence AI-generated voice detected. " +:+
  "Spectral patterns show synthetic characteristics. " +:+
  "Recommend additional verification for fraud prevention.".
Definition ai_moderate : string :=
  "Likely AI-generated voice with moderate confidence. " +:+
  "Some synthetic markers detected. " +:+
  "Proceed with caution in sensitive contexts.".
Definition ai_low : string :=
  "Possible AI-generated voice with low confidence. " +:+
  "Mixed signals detected. " +:+
  "Consider secondary verification methods.".
Definition human_high : string :=
  "High confidence human voice detected. " +:+
  "Natural acoustic patterns consistent with human speech. " +:+
  "Low fraud risk based on audio analysis.".
Definition human_moderate : string :=
  "Likely human voice with moderate confidence. " +:+
  "Predominantly natural speech characteristics. " +:+
  "Standard verification recommended.".
Definition human_low : string :=
  "Possible human voice with low confidence. " +:+
  "Ambiguous acoustic features. " +:+
  "Additional verification recommended for high-stakes decisions.".

End Notions.

(* ===================================================================== *)
(** * Part II: properties                                                 *)
(* ===================================================================== *)

(** ** Binary64 comparisons *)

Lemma SFcompare_antisym (x y : spec_float) (c : comparison) :
  SFcompare x y = Some c -> SFcompare y x = Some (CompOpp c).
Proof.
  destruct x as [sx|sx| |sx mx ex], y as [sy|sy| |sy my ey]; simpl;
    try discriminate;
    repeat match goal with s : bool |- _ => destruct s end;
    intros [= <-]; try reflexivity;
    rewrite (Z.compare_antisym ey ex);
    destruct (ey ?= ex)%Z; simpl; try reflexivity;
    try rewrite CompOpp_involutive; f_equal;
    first [ exact (Pos.compare_cont_antisym my mx Eq)
          | symmetry; exact (Pos.compare_cont_antisym mx my Eq) ].
Qed.

(** [y <= x] excludes [x < y], also on infinities and NaN. *)
Lemma float_leb_not_ltb (x y : float) :
  (y <=? x)%float = true -> (x <? y)%float = false.
Proof.
  rewrite leb_spec, ltb_spec. unfold SFleb, SFltb.
  destruct (SFcompare (Prim2SF y) (Prim2SF x)) as [c|] eqn:E; [|discriminate].
  apply SFcompare_antisym in E. rewrite E.
  destruct c; simpl; (reflexivity || discriminate).
Qed.

(** ** The decision policy *)

Section DecisionPolicy.
Context `{AudioUtils.Externals} `{FeatureExtractor.SignalLib}
        `{Classifier.Sklearn} `{Inference.Builtins}.

(** C1. Whenever the classifier answers AI_GENERATED with confidence [c],
    the label [predict] reports is HUMAN if [c < 0.85] and AI_GENERATED if
    [0.85 <= c]; the reported confidence is [round(c, 4)] in both cases, so
    the override changes the label only. *)
Theorem safety_override
    (self : Inference.t) (audio_url : string) (st st' : AudioUtils.os_state)
    (audio : list Q) (sr : Z) (temp_path : string)
    (features : list float) (c : float) :
  AudioUtils.process_audio_from_url audio_url st = (Ok (audio, sr, temp_path), st') ->
  FeatureExtractor.extract_features (Inference.feature_extractor self) audio sr
    = Ok features ->
  Classifier.predict (Inference.model self) features = Ok ("AI_GENERATED", c) ->
  exists p st'',
    Inference.predict self audio_url st = (Ok p, st'') /\
    ((c <? 0.85)%float = true -> Inference.label p = "HUMAN") /\
    ((0.85 <=? c)%float = true -> Inference.label p = "AI_GENERATED") /\
    Inference.confidence p = Inference.round c 4.
Proof.
  intros Hdl Hfe Hcl.
  unfold Inference.predict. rewrite Hdl.
  unfold Inference.classify_and_explain. rewrite Hfe. cbn. rewrite Hcl. cbn.
  eexists _, _. split; [reflexivity|]. cbn.
  unfold Inference.safety_threshold. cbn.
  repeat split.
  - intros ->. reflexivity.
  - intros Hge. rewrite (float_leb_not_ltb _ _ Hge). reflexivity.
Qed.

End DecisionPolicy.

(** The deployment of [Scenario] with a forest that votes AI_GENERATED with
    probability 0.7: the reported label is HUMAN. *)
Lemma safety_override_witness :
  exists p st'',
    @Inference.predict
      (Scenario.externals [AudioUtils.Chunk 4096] (Z.to_nat 8000)) Scenario.signal_lib
      Scenario.sklearn Scenario.builtins
      (Scenario.engine 1 0.7) "https://example.com/a.wav" Scenario.idle = (Ok p, st'') /\
    ((0.7 <? 0.85)%float = true -> Inference.label p = "HUMAN") /\
    ((0.85 <=? 0.7)%float = true -> Inference.label p = "AI_GENERATED") /\
    Inference.confidence p = @Inference.round Scenario.builtins 0.7 4.
Proof.
  eapply (@safety_override
            (Scenario.externals [AudioUtils.Chunk 4096] (Z.to_nat 8000)) Scenario.signal_lib
            Scenario.sklearn Scenario.builtins
            (Scenario.engine 1 0.7) "https://example.com/a.wav" Scenario.idle).
  - vm_compute. reflexivity.
  - vm_compute. reflexivity.
  - vm_compute. reflexivity.
Defined.

(** ** URL validation *)

Lemma check_patterns_found (patterns : list string) (pattern url_lower : string) :
  In pattern patterns ->
  contains pattern url_lower = true ->
  Validation.check_patterns patterns url_lower
    = Raise (ValidationError "Security: Cannot access local/internal resources").
Proof.
  induction patterns as [|p rest IH]; simpl; [tauto|].
  intros [->|Hin] Hc.
  - rewrite Hc. reflexivity.
  - destruct (contains p url_lower); [reflexivity|]. apply IH; assumption.
Qed.

Lemma check_patterns_raises (patterns : list string) (url_lower : string) (e : exn) :
  Validation.check_patterns patterns url_lower = Raise e ->
  e = ValidationError "Security: Cannot access local/internal resources".
Proof.
  induction patterns as [|p rest IH]; simpl; [discriminate|].
  destruct (contains p url_lower); [intros [= <-]; reflexivity|exact IH].
Qed.

(** Every way out of [validate_url] other than [True] is a
    [ValidationError]. *)
Lemma validate_url_raises_only_validation_errors (url : string) (e : exn) :
  Validation.validate_url url = Raise e -> exists msg, e = ValidationError msg.
Proof.
  unfold Validation.validate_url.
  destruct (truthy url); cbn [negb]; [|intros [= <-]; eauto].
  destruct (Validation.check_format url); [|intros [= <-]; eauto].
  destruct (Validation.check_patterns _ _) eqn:Hp; [discriminate|].
  intros [= <-]. apply check_patterns_raises in Hp. eauto.
Qed.

(** A URL the validator refuses never reaches the engine: the route
    answers from the exception and the state is left as it was. *)
Lemma predict_voice_validates_first
    `{AudioUtils.Externals} `{FeatureExtractor.SignalLib}
    `{Classifier.Sklearn} `{Inference.Builtins}
    (engine : Inference.t) (audio_url : string) (st : AudioUtils.os_state) (e : exn) :
  Validation.validate_url audio_url = Raise e ->
  Api.predict_voice engine audio_url st = (Api.handle e, st).
Proof. intros Hv. unfold Api.predict_voice. rewrite Hv. reflexivity. Qed.

(** C6. [validate_url] raises [ValidationError] on "not-a-valid-url" (no
    scheme, no host) and on "http://127.0.0.1/x.mp3" (loopback); on both
    the [/predict] route answers 400 with the state untouched: nothing was
    fetched and no file was created. *)
Theorem invalid_url_never_reaches_acquisition
    `{AudioUtils.Externals} `{FeatureExtractor.SignalLib}
    `{Classifier.Sklearn} `{Inference.Builtins}
    (engine : Inference.t) (st : AudioUtils.os_state) :
  Validation.validate_url "not-a-valid-url"
    = Raise (ValidationError "Invalid URL: Invalid URL format") /\
  Validation.validate_url "http://127.0.0.1/x.mp3"
    = Raise (ValidationError "Security: Cannot access local/internal resources") /\
  Api.predict_voice engine "not-a-valid-url" st
    = (Api.HTTPException 400 "ValidationError" "Invalid URL: Invalid URL format", st) /\
  Api.predict_voice engine "http://127.0.0.1/x.mp3" st
    = (Api.HTTPException 400 "ValidationError"
         "Security: Cannot access local/internal resources", st).
Proof.
  assert (Hformat : Validation.validate_url "not-a-valid-url"
                 = Raise (ValidationError "Invalid URL: Invalid URL format"))
    by (vm_compute; reflexivity).
  assert (Hloop : Validation.validate_url "http://127.0.0.1/x.mp3"
                 = Raise (ValidationError "Security: Cannot access local/internal resources"))
    by (vm_compute; reflexivity).
  split; [exact Hformat|]. split; [exact Hloop|]. split.
  - apply (predict_voice_validates_first engine _ st _ Hformat).
  - apply (predict_voice_validates_first engine _ st _ Hloop).
Qed.

(** C10. The blocklist is matched against the whole lowercased URL: any
    URL with "10.", "172.16." or "192.168." anywhere in it is refused with
    a [ValidationError]. "https://example.com/v10.mp3", whose host is the
    public example.com, is refused as a local resource because of its file
    name. *)
Theorem blocklist_matches_whole_url :
  (forall url : string,
     contains "10." (lower url) = true \/
     contains "172.16." (lower url) = true \/
     contains "192.168." (lower url) = true ->
     exists msg, Validation.validate_url url = Raise (ValidationError msg)) /\
  urlparse "https://example.com/v10.mp3"
    = Ok {| scheme := "https"; netloc := "example.com" |} /\
  Validation.validate_url "https://example.com/v10.mp3"
    = Raise (ValidationError "Security: Cannot access local/internal resources").
Proof.
  split; [|split; vm_compute; reflexivity].
  intros url Hpat.
  assert (Hsec : Validation.check_patterns Validation.dangerous_patterns (lower url)
                 = Raise (ValidationError "Security: Cannot access local/internal resources")).
  { destruct Hpat as [Hc|[Hc|Hc]];
      (eapply check_patterns_found; [|exact Hc]); simpl; tauto. }
  unfold Validation.validate_url.
  destruct (truthy url); cbn [negb]; [|eauto].
  destruct (Validation.check_format url); [|eauto].
  rewrite Hsec. eauto.
Qed.

(** The path component "/files/172.16.mp3" of a public host is enough. *)
Lemma blocklist_matches_whole_url_witness :
  exists msg,
    Validation.validate_url "https://cdn.example.org/files/172.16.mp3"
      = Raise (ValidationError msg).
Proof.
  apply (proj1 blocklist_matches_whole_url).
  right; left. vm_compute. reflexivity.
Defined.

(** ** Audio acquisition *)

Section Acquisition.
Context `{AudioUtils.Externals}.

(** C9. [download_audio] tests the literal prefixes "http://" and
    "https://": a URL that starts with neither raises [AudioDownloadError]
    before anything is fetched. "HTTP://example.com/a.mp3" is such a URL,
    although [validate_url], which reads the lowercased scheme from the
    parser, accepts it. *)
Theorem download_audio_scheme_is_case_sensitive :
  (forall (url : string) (st : AudioUtils.os_state),
     startswith url "http://" = false ->
     startswith url "https://" = false ->
     AudioUtils.download_audio url st
       = (Raise (AudioDownloadError "Invalid URL: must use http or https protocol"), st)) /\
  urlparse "HTTP://example.com/a.mp3"
    = Ok {| scheme := "http"; netloc := "example.com" |} /\
  Validation.validate_url "HTTP://example.com/a.mp3" = Ok true /\
  (forall st : AudioUtils.os_state,
     AudioUtils.download_audio "HTTP://example.com/a.mp3" st
       = (Raise (AudioDownloadError "Invalid URL: must use http or https protocol"), st)).
Proof.
  assert (Hgen : forall (url : string) (st : AudioUtils.os_state),
     startswith url "http://" = false ->
     startswith url "https://" = false ->
     AudioUtils.download_audio url st
       = (Raise (AudioDownloadError "Invalid URL: must use http or https protocol"), st)).
  { intros url st Hhttp Hhttps. unfold AudioUtils.download_audio.
    rewrite Hhttp, Hhttps. reflexivity. }
  split; [exact Hgen|].
  split; [vm_compute; reflexivity|].
  split; [vm_compute; reflexivity|].
  intros st. apply Hgen; vm_compute; reflexivity.
Qed.

Lemma total_len_cons (len : N) (chunks : list N) :
  Notions.total_len (len :: chunks) = (len + Notions.total_len chunks)%N.
Proof. reflexivity. Qed.

Lemma written_cons (temp_path : string) (len : N) (chunks : list N)
    (st : AudioUtils.os_state) :
  Notions.written temp_path (len :: chunks) st
    = Notions.written temp_path chunks
        (if (0 <? len)%N then AudioUtils.write temp_path len st else st).
Proof. reflexivity. Qed.

(** Chunks that fit under the limit are written one after the other. *)
Lemma receive_chunks (temp_path : string) (chunks : list N)
    (events : list AudioUtils.stream_event) (total_size : N) (st : AudioUtils.os_state) :
  (total_size + Notions.total_len chunks <= AudioUtils.MAX_FILE_SIZE)%N ->
  AudioUtils.receive temp_path (map AudioUtils.Chunk chunks ++ events) total_size st
    = AudioUtils.receive temp_path events (total_size + Notions.total_len chunks)
        (Notions.written temp_path chunks st).
Proof.
  revert total_size st.
  induction chunks as [|len chunks IH]; intros total_size st Hfit.
  - cbn. rewrite N.add_0_r. reflexivity.
  - rewrite total_len_cons in *. rewrite written_cons.
    cbn [map app AudioUtils.receive].
    destruct (0 <? len)%N eqn:Hlen.
    + destruct (AudioUtils.MAX_FILE_SIZE <? total_size + len)%N eqn:Hover.
      * apply N.ltb_lt in Hover. exfalso. lia.
      * rewrite IH by lia. f_equal. lia.
    + apply N.ltb_ge in Hlen. rewrite IH by lia. f_equal. lia.
Qed.

Lemma written_fetched (temp_path : string) (chunks : list N) (st : AudioUtils.os_state) :
  AudioUtils.fetched (Notions.written temp_path chunks st) = AudioUtils.fetched st.
Proof.
  revert st. induction chunks as [|len chunks IH]; intros st; [reflexivity|].
  rewrite written_cons, IH. destruct (0 <? len)%N; reflexivity.
Qed.

(** Writing to the scratch file touches no other file. *)
Lemma written_delete (temp_path : string) (chunks : list N) (st : AudioUtils.os_state) :
  delete temp_path (AudioUtils.files (Notions.written temp_path chunks st))
    = delete temp_path (AudioUtils.files st).
Proof.
  revert st. induction chunks as [|len chunks IH]; intros st; [reflexivity|].
  rewrite written_cons, IH. destruct (0 <? len)%N; [|reflexivity].
  cbn. apply delete_alter_eq.
Qed.

(** The scratch file holds the bytes written so far. *)
Lemma written_lookup (temp_path : string) (chunks : list N) (st : AudioUtils.os_state) :
  AudioUtils.files (Notions.written temp_path chunks st) !! temp_path
    = N.add (Notions.total_len chunks) <$> AudioUtils.files st !! temp_path.
Proof.
  revert st. induction chunks as [|len chunks IH]; intros st.
  - cbn. destruct (AudioUtils.files st !! temp_path); reflexivity.
  - rewrite written_cons, IH, total_len_cons.
    destruct (0 <? len)%N eqn:Hlen.
    + cbn [AudioUtils.write AudioUtils.files]. rewrite lookup_alter_eq.
      destruct (AudioUtils.files st !! temp_path); cbn [fmap option_fmap option_map];
        [f_equal; lia|reflexivity].
    + apply N.ltb_ge in Hlen.
      destruct (AudioUtils.files st !! temp_path); cbn [fmap option_fmap option_map];
        [f_equal; lia|reflexivity].
Qed.

(** C5. When the chunks received so far fit under 50 MB and the next chunk
    takes the running total over it, [download_audio] raises
    [AudioDownloadError] at that chunk. The outcome does not depend on the
    events that would follow, which are never read; the scratch file is
    gone from the final state and every other file is as before. *)
Theorem oversize_download_aborts_at_first_excess_chunk
    (url : string) (st : AudioUtils.os_state) (response : AudioUtils.response)
    (chunks : list N) (len : N) (rest : list AudioUtils.stream_event) :
  startswith url "http://" || startswith url "https://" = true ->
  AudioUtils.requests_get url = Ok response ->
  AudioUtils.status_error response = None ->
  AudioUtils.body response = map AudioUtils.Chunk chunks ++ AudioUtils.Chunk len :: rest ->
  (Notions.total_len chunks <= AudioUtils.MAX_FILE_SIZE)%N ->
  (AudioUtils.MAX_FILE_SIZE < Notions.total_len chunks + len)%N ->
  AudioUtils.download_audio url st
    = (Raise (AudioDownloadError
         "Unexpected error during download: File too large: exceeds 50.0MB limit"),
       {| AudioUtils.files := delete (AudioUtils.temp_file_name url) (AudioUtils.files st);
          AudioUtils.fetched := url :: AudioUtils.fetched st |}) /\
  delete (AudioUtils.temp_file_name url) (AudioUtils.files st)
    !! AudioUtils.temp_file_name url = None.
Proof.
  intros Hscheme Hget Hstatus Hbody Hfit Hover.
  split; [|apply lookup_delete_eq].
  unfold AudioUtils.download_audio. rewrite Hscheme. cbn [negb].
  unfold AudioUtils.fetch_to_temp. rewrite Hget.
  unfold AudioUtils.raise_for_status. rewrite Hstatus, Hbody.
  rewrite receive_chunks by (rewrite N.add_0_l; exact Hfit).
  cbn [AudioUtils.receive]. rewrite N.add_0_l.
  assert (Hlen : (0 <? len)%N = true) by (apply N.ltb_lt; lia).
  rewrite Hlen.
  apply N.ltb_lt in Hover. rewrite Hover.
  f_equal. unfold AudioUtils.os_remove. f_equal.
  - rewrite written_delete. cbn. apply delete_insert_eq.
  - rewrite written_fetched. reflexivity.
Qed.

(** A body cut short by a network error: the exception leaves the loop
    with the bytes received so far on disk. *)
Lemma interrupted_download_keeps_partial_file
    (url : string) (st : AudioUtils.os_state) (response : AudioUtils.response)
    (chunks : list N) (msg : string) (rest : list AudioUtils.stream_event) :
  startswith url "http://" || startswith url "https://" = true ->
  AudioUtils.requests_get url = Ok response ->
  AudioUtils.status_error response = None ->
  AudioUtils.body response = map AudioUtils.Chunk chunks ++ AudioUtils.Broken msg :: rest ->
  (Notions.total_len chunks <= AudioUtils.MAX_FILE_SIZE)%N ->
  exists st',
    AudioUtils.process_audio_from_url url st
      = (Raise (AudioDownloadError ("Download failed: " +:+ msg)), st') /\
    AudioUtils.files st' !! AudioUtils.temp_file_name url
      = Some (Notions.total_len chunks).
Proof.
  intros Hscheme Hget Hstatus Hbody Hfit.
  eexists. split.
  - unfold AudioUtils.process_audio_from_url, AudioUtils.download_audio.
    rewrite Hscheme. cbn [negb].
    unfold AudioUtils.fetch_to_temp. rewrite Hget.
    unfold AudioUtils.raise_for_status. rewrite Hstatus, Hbody.
    rewrite receive_chunks by (rewrite N.add_0_l; exact Hfit).
    cbn. reflexivity.
  - rewrite written_lookup. cbn. rewrite lookup_insert_eq. cbn.
    f_equal. lia.
Qed.

End Acquisition.

(** A server that sends 6400 chunks of 8192 bytes, 50 MB to the byte, and
    then one chunk more. *)
Lemma oversize_download_aborts_at_first_excess_chunk_witness :
  let events := map AudioUtils.Chunk (repeat 8192%N (Z.to_nat 6400))
                ++ [AudioUtils.Chunk 8192; AudioUtils.Chunk 8192] in
  @AudioUtils.download_audio (Scenario.externals events 0)
      "https://example.com/long.wav" Scenario.idle
    = (Raise (AudioDownloadError
         "Unexpected error during download: File too large: exceeds 50.0MB limit"),
       {| AudioUtils.files := delete Scenario.temp_path ∅;
          AudioUtils.fetched := ["https://example.com/long.wav"] |}) /\
  delete Scenario.temp_path (∅ : gmap string N) !! Scenario.temp_path = None.
Proof.
  intros events.
  apply (@oversize_download_aborts_at_first_excess_chunk
           (Scenario.externals events 0) "https://example.com/long.wav" Scenario.idle
           {| AudioUtils.status_error := None;
              AudioUtils.content_type := "audio/wav";
              AudioUtils.body := events |}
           (repeat 8192%N (Z.to_nat 6400)) 8192%N [AudioUtils.Chunk 8192]).
  - vm_compute. reflexivity.
  - reflexivity.
  - reflexivity.
  - reflexivity.
  - vm_compute. discriminate.
  - vm_compute. reflexivity.
Defined.

(** A capitalised "Https" is refused in the same way, whatever the server
    would have sent. *)
Lemma download_audio_scheme_is_case_sensitive_witness :
  @AudioUtils.download_audio (Scenario.externals [AudioUtils.Chunk 4096] 0)
      "Https://example.com/a.mp3" Scenario.idle
    = (Raise (AudioDownloadError "Invalid URL: must use http or https protocol"),
       Scenario.idle).
Proof.
  apply (proj1 (@download_audio_scheme_is_case_sensitive
                  (Scenario.externals [AudioUtils.Chunk 4096] 0)));
    vm_compute; reflexivity.
Defined.

(** ** Cleanup of the scratch file *)

Section Cleanup.
Context `{AudioUtils.Externals} `{FeatureExtractor.SignalLib}
        `{Classifier.Sklearn} `{Inference.Builtins}.

Lemma cleanup_removes (file_path : string) (st : AudioUtils.os_state) :
  AudioUtils.files (AudioUtils.cleanup file_path st) !! file_path = None.
Proof.
  unfold AudioUtils.cleanup. case_bool_decide as Hex.
  - cbn. apply lookup_delete_eq.
  - destruct (AudioUtils.files st !! file_path) eqn:E; [|reflexivity].
    exfalso. apply Hex. eauto.
Qed.

(** When the whole body arrives, the receiving loop either returns or has
    removed the scratch file. *)
Lemma receive_whole_body (temp_path : string) (chunks : list N) (total_size : N)
    (st : AudioUtils.os_state) :
  match AudioUtils.receive temp_path (map AudioUtils.Chunk chunks) total_size st with
  | (Ok _, _) => True
  | (Raise _, st') => AudioUtils.files st' !! temp_path = None
  end.
Proof.
  revert total_size st. induction chunks as [|len chunks IH]; intros total_size st.
  - exact I.
  - cbn [map AudioUtils.receive].
    destruct (0 <? len)%N; [|apply IH].
    destruct (AudioUtils.MAX_FILE_SIZE <? total_size + len)%N; [|apply IH].
    cbn. apply lookup_delete_eq.
Qed.

(** On every path of [predict] on which the body of the response arrives
    without a network error, the scratch file is gone at the end: whether
    the download is refused for its size or for being empty, the decoder
    fails, the classification fails, or a prediction is returned. *)
Lemma temp_file_removed_when_body_arrives
    (self : Inference.t) (url : string) (st : AudioUtils.os_state)
    (response : AudioUtils.response) (chunks : list N) :
  truthy (AudioUtils.temp_file_name url) = true ->
  AudioUtils.requests_get url = Ok response ->
  AudioUtils.status_error response = None ->
  AudioUtils.body response = map AudioUtils.Chunk chunks ->
  startswith url "http://" || startswith url "https://" = true ->
  AudioUtils.files (Inference.predict self url st).2 !! AudioUtils.temp_file_name url = None.
Proof.
  intros Htruthy Hget Hstatus Hbody Hscheme.
  unfold Inference.predict, AudioUtils.process_audio_from_url, AudioUtils.download_audio.
  rewrite Hscheme. cbn [negb].
  unfold AudioUtils.fetch_to_temp. rewrite Hget.
  unfold AudioUtils.raise_for_status. rewrite Hstatus, Hbody.
  pose proof (receive_whole_body (AudioUtils.temp_file_name url) chunks 0
                (Notions.receiving url st)) as Hloop.
  unfold Notions.receiving in Hloop.
  destruct (AudioUtils.receive _ _ _ _) as [[total_size|e] st1].
  - destruct (total_size =? 0)%N.
    + cbn. apply lookup_delete_eq.
    + destruct (AudioUtils.load_and_preprocess _) as [[audio sr]|e];
        rewrite Htruthy; cbn; apply cleanup_removes.
  - destruct e; cbn; exact Hloop.
Qed.

End Cleanup.

(** C2, at an input on which the code does not do what the claim says.
    The server sends 4096 bytes and the connection breaks. [predict] raises
    [AudioDownloadError], and the scratch file is still on disk with the
    4096 bytes: [download_audio] raised before [temp_path] was assigned in
    [process_audio_from_url], so neither its handler nor the [finally] of
    [predict] has a path to remove. The route answers 400 and leaves the
    file as well. *)
Theorem interrupted_download_leaves_temp_file :
  let events := [AudioUtils.Chunk 4096; AudioUtils.Broken "Connection broken"] in
  let run :=
    @Inference.predict (Scenario.externals events 0) Scenario.signal_lib
      Scenario.sklearn Scenario.builtins
      (Scenario.engine 1 0.9) "https://example.com/a.wav" Scenario.idle in
  let answer :=
    @Api.predict_voice (Scenario.externals events 0) Scenario.signal_lib
      Scenario.sklearn Scenario.builtins
      (Scenario.engine 1 0.9) "https://example.com/a.wav" Scenario.idle in
  run.1 = Raise (AudioDownloadError "Download failed: Connection broken") /\
  AudioUtils.files run.2 !! Scenario.temp_path = Some 4096%N /\
  answer.1 = Api.HTTPException 400 "AudioDownloadError" "Download failed: Connection broken" /\
  AudioUtils.files answer.2 !! Scenario.temp_path = Some 4096%N.
Proof. vm_compute. repeat split; reflexivity. Qed.

(** ** Decoding and peak normalisation *)

Lemma Qlt_bool_iff (x y : Q) : AudioUtils.Qlt_bool x y = true <-> (x < y)%Q.
Proof.
  unfold AudioUtils.Qlt_bool. rewrite negb_true_iff.
  split.
  - intros Hle. apply Qnot_le_lt. intros Hyx.
    apply Qle_bool_iff in Hyx. congruence.
  - intros Hlt. destruct (Qle_bool y x) eqn:E; [|reflexivity].
    apply Qle_bool_iff in E. exfalso. exact (Qlt_not_le _ _ Hlt E).
Qed.

Section Decoding.
Context `{AudioUtils.Externals}.

(** C7. When the decoder returns no sample, or fewer samples than half a
    second at the returned rate, [load_and_preprocess] raises
    [AudioDownloadError] and returns no waveform. An empty clip is reported
    as empty or corrupted; for any other clip the message contains
    "Audio too short". *)
Theorem short_audio_is_rejected (file_path : string) (audio : list Q) (sr : Z) :
  AudioUtils.librosa_load file_path AudioUtils.TARGET_SAMPLE_RATE = Ok (audio, sr) ->
  length audio = 0%nat \/
    (inject_Z (Z.of_nat (length audio)) < inject_Z sr * 0.5)%Q ->
  exists msg,
    AudioUtils.load_and_preprocess file_path = Raise (AudioDownloadError msg) /\
    (length audio = 0%nat ->
     msg = "Failed to load audio: Audio file is empty or corrupted") /\
    (length audio <> 0%nat ->
     msg = "Failed to load audio: Audio too short: minimum 0.5 seconds required" /\
     contains "Audio too short" msg = true).
Proof.
  intros Hload Hshort.
  unfold AudioUtils.load_and_preprocess, AudioUtils.decode_and_check.
  rewrite Hload. cbn [mbind result_bind bind].
  destruct (length audio =? 0)%nat eqn:Hlen.
  - apply Nat.eqb_eq in Hlen. eexists. split; [reflexivity|].
    split; [reflexivity|]. intros Hne. contradiction.
  - apply Nat.eqb_neq in Hlen. destruct Hshort as [Hzero|Hlt]; [contradiction|].
    apply Qlt_bool_iff in Hlt. rewrite Hlt.
    eexists. split; [reflexivity|].
    split; [intros Hzero; contradiction|].
    intros _. split; [reflexivity|]. vm_compute. reflexivity.
Qed.

End Decoding.

(** A clip of 0.2 s at 16 kHz, 3200 samples. *)
Lemma short_audio_is_rejected_witness :
  exists msg,
    @AudioUtils.load_and_preprocess
        (Scenario.externals [AudioUtils.Chunk 4096] (Z.to_nat 3200)) Scenario.temp_path
      = Raise (AudioDownloadError msg) /\
    contains "Audio too short" msg = true.
Proof.
  destruct (@short_audio_is_rejected
              (Scenario.externals [AudioUtils.Chunk 4096] (Z.to_nat 3200))
              Scenario.temp_path (repeat (1 # 2)%Q (Z.to_nat 3200)) 16000)
    as (msg & Hraise & _ & Hshort).
  - reflexivity.
  - right. vm_compute. reflexivity.
  - exists msg. split; [exact Hraise|].
    apply Hshort. vm_compute. discriminate.
Defined.

(** [np.abs(audio).max()] has no value on an empty array: the normaliser is
    called on waveforms with at least one sample, which
    [load_and_preprocess] checks first. *)
Remark normalize_audio_empty :
  AudioUtils._normalize_audio [] = Raise (ValueError
    "zero-size array to reduction operation maximum which has no identity").
Proof. reflexivity. Qed.

(** The running maximum of [np.abs(audio).max()]. *)
Lemma fold_max_ge_acc (l : list Q) (a : Q) : (a <= fold_left Qmax l a)%Q.
Proof.
  revert a. induction l as [|y l IH]; intros a; cbn.
  - apply Qle_refl.
  - eapply Qle_trans; [apply (Q.le_max_l a y)|apply IH].
Qed.

Lemma fold_max_ge_all (l : list Q) (a : Q) :
  Forall (fun y => y <= fold_left Qmax l a)%Q l.
Proof.
  revert a. induction l as [|y l IH]; intros a; cbn; constructor.
  - eapply Qle_trans; [apply (Q.le_max_r a y)|apply fold_max_ge_acc].
  - apply IH.
Qed.

Lemma fold_max_attained (l : list Q) (a : Q) :
  (fold_left Qmax l a == a)%Q \/ Exists (fun y => y == fold_left Qmax l a)%Q l.
Proof.
  revert a. induction l as [|y l IH]; intros a; cbn.
  - left. reflexivity.
  - destruct (IH (Qmax a y)) as [Heq|Hex].
    + destruct (Q.max_spec a y) as [[_ Hm]|[_ Hm]].
      * right. left. rewrite Heq, Hm. reflexivity.
      * left. rewrite Heq, Hm. reflexivity.
    + right. right. exact Hex.
Qed.

Lemma abs_max_spec (audio : list Q) :
  audio <> [] ->
  exists max_val,
    AudioUtils.abs_max audio = Ok max_val /\
    Forall (fun x => Qabs x <= max_val)%Q audio /\
    Exists (fun x => Qabs x == max_val)%Q audio.
Proof.
  destruct audio as [|x rest]; [congruence|]. intros _.
  eexists. split; [reflexivity|]. split.
  - constructor; [apply fold_max_ge_acc|].
    pose proof (fold_max_ge_all (map Qabs rest) (Qabs x)) as Hall.
    rewrite Forall_map in Hall. exact Hall.
  - destruct (fold_max_attained (map Qabs rest) (Qabs x)) as [Heq|Hex].
    + left. symmetry. exact Heq.
    + right. rewrite Exists_map in Hex. exact Hex.
Qed.

(** A sample no larger than the positive peak lands in [-1, 1]. *)
Lemma scaled_sample_in_range (x max_val : Q) :
  (0 < max_val)%Q -> (Qabs x <= max_val)%Q -> (-1 <= x / max_val <= 1)%Q.
Proof.
  intros Hpos Habs. apply Qabs_Qle_condition in Habs. destruct Habs as [Hlo Hhi].
  split.
  - apply Qle_shift_div_l; [exact Hpos|].
    assert (E : (-1 * max_val == - max_val)%Q) by ring. rewrite E. exact Hlo.
  - apply Qle_shift_div_r; [exact Hpos|].
    assert (E : (1 * max_val == max_val)%Q) by ring. rewrite E. exact Hhi.
Qed.




(** ** The layout of the feature vector *)

Lemma flat_map_lookup_4 {A B : Type} (f : A -> list B) (l : list A)
    (r k : nat) (a : A) :
  (forall a, length (f a) = 4%nat) ->
  l !! r = Some a ->
  (k < 4)%nat ->
  flat_map f l !! (4 * r + k)%nat = f a !! k.
Proof.
  intros Hlen. revert r. induction l as [|b l IH]; intros r Hr Hk; [discriminate|].
  destruct r as [|r]; cbn [flat_map].
  - injection Hr as ->. rewrite Nat.mul_0_r, Nat.add_0_l.
    apply lookup_app_l. rewrite Hlen. exact Hk.
  - rewrite lookup_app_r by (rewrite Hlen; lia).
    rewrite Hlen. replace (4 * S r + k - 4)%nat with (4 * r + k)%nat by lia.
    apply IH; assumption.
Qed.

Lemma flat_map_length_4 {A B : Type} (f : A -> list B) (l : list A) :
  (forall a, length (f a) = 4%nat) -> length (flat_map f l) = (4 * length l)%nat.
Proof.
  intros Hlen. induction l as [|a l IH]; [reflexivity|].
  cbn [flat_map]. rewrite length_app, Hlen, IH. cbn [length]. lia.
Qed.

Section Layout.
Context `{FeatureExtractor.SignalLib}.

Lemma compute_statistics_flat_map (m : FeatureExtractor.matrix) :
  FeatureExtractor._compute_statistics m = flat_map FeatureExtractor.row_statistics m.
Proof. induction m as [|row m IH]; [reflexivity|]. cbn. rewrite IH. reflexivity. Qed.

(** C3, amended. When the six librosa routines return matrices with the
    documented numbers of rows (13, 1, 1, 1, 1, 12), [extract_features]
    returns a vector of 116 values and [get_feature_names] 116 names, and
    for each of the 29 rows, in the order MFCC, centroid, rolloff,
    zero-crossing rate, bandwidth, chroma, positions [4r] to [4r+3] hold the
    mean, the standard deviation, the minimum and the maximum of row [r] in
    the vector and the names of row [r] with the suffixes _mean, _std, _min,
    _max in the list. *)
Theorem feature_vector_layout (audio : list Q) (sr : Z)
    (m centroid rolloff zcr bandwidth chroma : FeatureExtractor.matrix) :
  FeatureExtractor.mfcc audio sr 13 2048 512 = Ok m -> length m = 13%nat ->
  FeatureExtractor.spectral_centroid audio sr 2048 512 = Ok centroid ->
  length centroid = 1%nat ->
  FeatureExtractor.spectral_rolloff audio sr 2048 512 = Ok rolloff ->
  length rolloff = 1%nat ->
  FeatureExtractor.zero_crossing_rate audio 2048 512 = Ok zcr ->
  length zcr = 1%nat ->
  FeatureExtractor.spectral_bandwidth audio sr 2048 512 = Ok bandwidth ->
  length bandwidth = 1%nat ->
  FeatureExtractor.chroma_stft audio sr 2048 512 = Ok chroma -> length chroma = 12%nat ->
  exists features,
    FeatureExtractor.extract_features FeatureExtractor.default audio sr = Ok features /\
    length features = 116%nat /\
    length (FeatureExtractor.get_feature_names FeatureExtractor.default) = 116%nat /\
    forall (r : nat) (row : list float),
      (m ++ centroid ++ rolloff ++ zcr ++ bandwidth ++ chroma) !! r = Some row ->
      exists base,
        Notions.row_labels !! r = Some base /\
        features !! (4 * r)%nat = Some (FeatureExtractor.np_mean row) /\
        features !! (4 * r + 1)%nat = Some (FeatureExtractor.np_std row) /\
        features !! (4 * r + 2)%nat = Some (FeatureExtractor.np_min row) /\
        features !! (4 * r + 3)%nat = Some (FeatureExtractor.np_max row) /\
        FeatureExtractor.get_feature_names FeatureExtractor.default !! (4 * r)%nat
          = Some (base +:+ "_mean") /\
        FeatureExtractor.get_feature_names FeatureExtractor.default !! (4 * r + 1)%nat
          = Some (base +:+ "_std") /\
        FeatureExtractor.get_feature_names FeatureExtractor.default !! (4 * r + 2)%nat
          = Some (base +:+ "_min") /\
        FeatureExtractor.get_feature_names FeatureExtractor.default !! (4 * r + 3)%nat
          = Some (base +:+ "_max").
Proof.
  intros Hm Lm Hc Lc Hr Lr Hz Lz Hb Lb Hk Lk.
  set (rows := m ++ centroid ++ rolloff ++ zcr ++ bandwidth ++ chroma).
  assert (Hrows : length rows = 29%nat).
  { unfold rows. rewrite !length_app, Lm, Lc, Lr, Lz, Lb, Lk. reflexivity. }
  assert (Hstat : forall row, length (FeatureExtractor.row_statistics row) = 4%nat)
    by reflexivity.
  assert (Hname : forall base, length (FeatureExtractor.stat_names base) = 4%nat)
    by reflexivity.
  assert (Hnames : FeatureExtractor.get_feature_names FeatureExtractor.default
                   = flat_map FeatureExtractor.stat_names Notions.row_labels)
    by (vm_compute; reflexivity).
  exists (flat_map FeatureExtractor.row_statistics rows).
  split; [|split; [|split]].
  - unfold FeatureExtractor.extract_features. cbn [FeatureExtractor.default
      FeatureExtractor.n_mfcc FeatureExtractor.n_fft FeatureExtractor.hop_length].
    rewrite Hm. cbn [mbind result_bind bind]. rewrite Hc. cbn [mbind result_bind bind].
    rewrite Hr. cbn [mbind result_bind bind]. rewrite Hz. cbn [mbind result_bind bind].
    rewrite Hb. cbn [mbind result_bind bind]. rewrite Hk. cbn [mbind result_bind bind].
    rewrite !compute_statistics_flat_map. unfold rows.
    rewrite !flat_map_app, !app_nil_l, <- !app_assoc. reflexivity.
  - rewrite flat_map_length_4 by exact Hstat. rewrite Hrows. reflexivity.
  - rewrite Hnames, flat_map_length_4 by exact Hname. reflexivity.
  - intros r row Hrow.
    assert (Hlt : (r < length Notions.row_labels)%nat).
    { apply lookup_lt_Some in Hrow. rewrite Hrows in Hrow. exact Hrow. }
    destruct (lookup_lt_is_Some_2 _ _ Hlt) as [base Hbase].
    exists base. split; [exact Hbase|].
    rewrite Hnames.
    rewrite <- (Nat.add_0_r (4 * r)) at 1 5.
    rewrite !(flat_map_lookup_4 _ rows r _ row Hstat Hrow) by lia.
    rewrite !(flat_map_lookup_4 _ Notions.row_labels r _ base Hname Hbase) by lia.
    repeat split; reflexivity.
Qed.

End Layout.

(** The descriptors of [Scenario] have the documented shapes. *)
Lemma feature_vector_layout_witness :
  exists features,
    @FeatureExtractor.extract_features Scenario.signal_lib
       FeatureExtractor.default [1 # 2; - (3 # 4); 0]%Q 16000 = Ok features /\
    length features = 116%nat.
Proof.
  destruct (@feature_vector_layout Scenario.signal_lib [1 # 2; - (3 # 4); 0]%Q 16000
              (Scenario.frames 13) (Scenario.frames 1) (Scenario.frames 1)
              (Scenario.frames 1) (Scenario.frames 1) (Scenario.frames 12)
              eq_refl eq_refl eq_refl eq_refl eq_refl eq_refl
              eq_refl eq_refl eq_refl eq_refl eq_refl eq_refl)
    as (features & Hfeatures & Hlen & _).
  exists features. split; assumption.
Defined.

(** C3 as stated counts 28 rows. The rows it lists are 29: the names do not
    stop at position [4 * 28], where the four statistics of the last chroma
    bin begin. *)
Lemma feature_rows_are_not_28 :
  length Notions.row_labels <> 28%nat /\
  length (FeatureExtractor.get_feature_names FeatureExtractor.default) <> (4 * 28)%nat /\
  Notions.row_labels !! 28%nat = Some "chroma_11" /\
  FeatureExtractor.get_feature_names FeatureExtractor.default !! (4 * 28)%nat
    = Some "chroma_11_mean".
Proof. vm_compute. repeat split; (discriminate || reflexivity). Qed.

(** ** Persistence of the classifier *)

Section Persistence.
Context `{Classifier.Joblib}.

(** C4. Provided joblib reads back what it wrote, saving a trained
    classifier and loading the file yields a classifier with the same
    forest, feature names, class names and trained flag, hence the same
    label and the same confidence on every feature vector. *)
Theorem save_then_load_restores_classifier
    (self : Classifier.t) (model_path : string) (disk : gmap string Classifier.blob) :
  (forall data, Classifier.joblib_load (Classifier.joblib_dump data) = Ok data) ->
  Classifier.trained self = true ->
  exists disk' loaded,
    Classifier.save_model self model_path disk = (Ok tt, disk') /\
    Classifier.load_model model_path disk' = Ok loaded /\
    Classifier.model loaded = Classifier.model self /\
    Classifier.feature_names loaded = Classifier.feature_names self /\
    Classifier.class_names loaded = Classifier.class_names self /\
    Classifier.trained loaded = true /\
    forall features : list float,
      Classifier.predict loaded features = Classifier.predict self features.
Proof.
  intros Hcodec Htrained.
  unfold Classifier.save_model. rewrite Htrained. cbn [negb].
  eexists _, self. split; [reflexivity|].
  split.
  - unfold Classifier.load_model. rewrite lookup_insert_eq, Hcodec.
    cbn. destruct self; cbn in *. subst. reflexivity.
  - repeat split; try reflexivity. exact Htrained.
Qed.

End Persistence.

(** A forest that votes AI_GENERATED with probability 0.9, saved under
    "model/voice_model.pkl" on an empty disk. *)
Lemma save_then_load_restores_classifier_witness :
  exists disk' loaded,
    @Classifier.save_model Scenario.sklearn Scenario.joblib
        (Scenario.classifier 1 0.9) "model/voice_model.pkl" ∅ = (Ok tt, disk') /\
    @Classifier.load_model Scenario.sklearn Scenario.joblib
        "model/voice_model.pkl" disk' = Ok loaded /\
    Classifier.model loaded = Classifier.model (Scenario.classifier 1 0.9) /\
    Classifier.feature_names loaded = Classifier.feature_names (Scenario.classifier 1 0.9) /\
    Classifier.class_names loaded = Classifier.class_names (Scenario.classifier 1 0.9) /\
    Classifier.trained loaded = true /\
    forall features : list float,
      Classifier.predict loaded features
        = Classifier.predict (Scenario.classifier 1 0.9) features.
Proof.
  apply (@save_then_load_restores_classifier Scenario.sklearn Scenario.joblib
           (Scenario.classifier 1 0.9) "model/voice_model.pkl" ∅).
  - intros data. reflexivity.
  - reflexivity.
Defined.

(* ===================================================================== *)
(** * Part III: further properties of the code                            *)
(* ===================================================================== *)

(** ** Strings *)






Lemma take_all (n : nat) (s : string) : (String.length s <= n)%nat -> take n s = s.
Proof.
  revert n. induction s as [|c s IH]; intros n Hn.
  - destruct n; reflexivity.
  - destruct n as [|n]; cbn in *; [lia|]. rewrite IH by lia. reflexivity.
Qed.

Lemma take_length (n : nat) (s : string) : (String.length (take n s) <= n)%nat.
Proof.
  revert n. induction s as [|c s IH]; intros n.
  - destruct n; cbn; lia.
  - destruct n as [|n]; cbn; [lia|]. specialize (IH n). lia.
Qed.

Lemma remove_chars_length (p : ascii -> bool) (s : string) :
  (String.length (remove_chars p s) <= String.length s)%nat.
Proof. induction s as [|c s IH]; cbn; [lia|]. destruct (p c); cbn; lia. Qed.

Lemma remove_chars_clean (p : ascii -> bool) (s : string) :
  all_chars (fun c => negb (p c)) (remove_chars p s) = true.
Proof.
  induction s as [|c s IH]; [reflexivity|]. cbn.
  destruct (p c) eqn:E; [exact IH|]. cbn. rewrite E, IH. reflexivity.
Qed.

Lemma remove_chars_id (p : ascii -> bool) (s : string) :
  all_chars (fun c => negb (p c)) s = true -> remove_chars p s = s.
Proof.
  induction s as [|c s IH]; [reflexivity|]. cbn.
  intros Hall. apply andb_true_iff in Hall. destruct Hall as [Hc Hs].
  apply negb_true_iff in Hc. rewrite Hc, (IH Hs). reflexivity.
Qed.

(** ** [sanitize_string] *)

(** X1. Whatever the input and the length, the result of [sanitize_string]
    holds no control character and is no longer than the input. *)
Theorem sanitize_string_is_clean (input_str : string) (max_length : Z) :
  all_chars (fun c => negb (Validation.is_control c))
    (Validation.sanitize_string input_str max_length) = true /\
  (String.length (Validation.sanitize_string input_str max_length)
     <= String.length input_str)%nat.
Proof.
  unfold Validation.sanitize_string.
  destruct (truthy input_str); cbn [negb]; [|split; [reflexivity|cbn; lia]].
  split; [apply remove_chars_clean|].
  etransitivity; [apply remove_chars_length|].
  unfold slice_to. destruct (0 <=? max_length)%Z.
  - destruct (Nat.le_gt_cases (String.length input_str) (Z.to_nat max_length)) as [Hle|Hgt].
    + rewrite take_all by exact Hle. lia.
    + etransitivity; [apply take_length|]. lia.
  - destruct (Nat.le_gt_cases (String.length input_str)
                (Z.to_nat (Z.of_nat (String.length input_str) + max_length))) as [Hle|Hgt].
    + rewrite take_all by exact Hle. lia.
    + etransitivity; [apply take_length|]. lia.
Qed.

(** X2. With a limit that is not negative, the result has at most
    [max_length] characters. *)
Theorem sanitize_string_respects_limit (input_str : string) (max_length : Z) :
  (0 <= max_length)%Z ->
  (Z.of_nat (String.length (Validation.sanitize_string input_str max_length))
     <= max_length)%Z.
Proof.
  intros Hm. unfold Validation.sanitize_string.
  destruct (truthy input_str); cbn [negb]; [|cbn; lia].
  unfold slice_to. rewrite (proj2 (Z.leb_le 0 max_length) Hm).
  pose proof (remove_chars_length Validation.is_control
                (take (Z.to_nat max_length) input_str)) as Hr.
  pose proof (take_length (Z.to_nat max_length) input_str) as Ht.
  lia.
Qed.

Lemma sanitize_string_respects_limit_witness :
  (Z.of_nat (String.length (Validation.sanitize_string "voice sample 42" 5)) <= 5)%Z.
Proof. apply sanitize_string_respects_limit. lia. Defined.

(** X3. With a limit that is not negative, sanitising twice is sanitising
    once. *)
Theorem sanitize_string_idempotent (input_str : string) (max_length : Z) :
  (0 <= max_length)%Z ->
  Validation.sanitize_string (Validation.sanitize_string input_str max_length) max_length
    = Validation.sanitize_string input_str max_length.
Proof.
  intros Hm. unfold Validation.sanitize_string at 2 3.
  destruct (truthy input_str); cbn [negb]; [|reflexivity].
  unfold slice_to. rewrite (proj2 (Z.leb_le 0 max_length) Hm).
  set (r := remove_chars Validation.is_control (take (Z.to_nat max_length) input_str)).
  assert (Hlen : (String.length r <= Z.to_nat max_length)%nat).
  { etransitivity; [apply remove_chars_length|apply take_length]. }
  unfold Validation.sanitize_string.
  destruct (truthy r) eqn:Hr; cbn [negb].
  - unfold slice_to. rewrite (proj2 (Z.leb_le 0 max_length) Hm).
    rewrite take_all by exact Hlen.
    apply remove_chars_id. apply remove_chars_clean.
  - destruct r; [reflexivity|discriminate].
Qed.

Lemma sanitize_string_idempotent_witness :
  Validation.sanitize_string (Validation.sanitize_string "voice sample 42" 5) 5
    = Validation.sanitize_string "voice sample 42" 5.
Proof. apply sanitize_string_idempotent. lia. Defined.

(** ** [validate_url] *)

Lemma check_patterns_passes (patterns : list string) (url_lower : string) :
  Validation.check_patterns patterns url_lower = Ok tt ->
  Forall (fun pattern => contains pattern url_lower = false) patterns.
Proof.
  induction patterns as [|p rest IH]; cbn; intros Hok; constructor.
  - destruct (contains p url_lower); [discriminate|reflexivity].
  - destruct (contains p url_lower); [discriminate|]. exact (IH Hok).
Qed.

(** X4. A URL that [validate_url] accepts is not empty, parses with scheme
    "http" or "https" and a host, and its lowercased text contains none of
    the eight blocked patterns. *)
Theorem validate_url_accepted (url : string) (b : bool) :
  Validation.validate_url url = Ok b ->
  b = true /\
  url <> "" /\
  (exists r,
     urlparse url = Ok r /\
     (scheme r = "http" \/ scheme r = "https") /\
     netloc r <> "") /\
  Forall (fun pattern => contains pattern (lower url) = false)
    Validation.dangerous_patterns.
Proof.
  unfold Validation.validate_url.
  destruct (truthy url) eqn:Hurl; cbn [negb]; [|discriminate].
  destruct (Validation.check_format url) as [[]|e] eqn:Hformat; [|discriminate].
  destruct (Validation.check_patterns _ _) as [[]|e] eqn:Hpat; [|discriminate].
  intros [= <-]. split; [reflexivity|].
  split; [intros ->; discriminate|].
  split; [|apply check_patterns_passes; exact Hpat].
  unfold Validation.check_format in Hformat.
  destruct (urlparse url) as [r|e]; [|discriminate].
  cbn [mbind result_bind bind] in Hformat.
  exists r. split; [reflexivity|].
  destruct (truthy (scheme r) && truthy (netloc r)) eqn:Hboth; [|discriminate].
  cbn [negb] in Hformat.
  apply andb_true_iff in Hboth. destruct Hboth as [_ Hnet].
  case_bool_decide as Hin; [|discriminate].
  split.
  - apply elem_of_cons in Hin. destruct Hin as [->|Hin]; [left; reflexivity|].
    apply elem_of_cons in Hin. destruct Hin as [->|Hin]; [right; reflexivity|].
    apply elem_of_nil in Hin. contradiction.
  - intros Hempty. rewrite Hempty in Hnet. discriminate.
Qed.

Lemma validate_url_accepted_witness :
  true = true /\
  "https://cdn.example.org/audio/sample.mp3" <> "" /\
  (exists r,
     urlparse "https://cdn.example.org/audio/sample.mp3" = Ok r /\
     (scheme r = "http" \/ scheme r = "https") /\
     netloc r <> "") /\
  Forall (fun pattern =>
            contains pattern (lower "https://cdn.example.org/audio/sample.mp3") = false)
    Validation.dangerous_patterns.
Proof.
  apply (validate_url_accepted "https://cdn.example.org/audio/sample.mp3" true).
  vm_compute. reflexivity.
Defined.

(** X5. [validate_url] fails in three ways only, each a [ValidationError]:
    the URL is empty; the parser or the format check failed, and the message
    starts with "Invalid URL: "; a blocked pattern was found. No other
    exception leaves it, the parser's [ValueError] included. *)
Theorem validate_url_failure_modes (url : string) (e : exn) :
  Validation.validate_url url = Raise e ->
  url = "" /\ e = ValidationError "URL must be a non-empty string" \/
  (exists cause,
     Validation.check_format url = Raise cause /\
     e = ValidationError ("Invalid URL: " +:+ str cause)) \/
  Validation.check_format url = Ok tt /\
  Exists (fun pattern => contains pattern (lower url) = true)
    Validation.dangerous_patterns /\
  e = ValidationError "Security: Cannot access local/internal resources".
Proof.
  unfold Validation.validate_url.
  destruct (truthy url) eqn:Hurl; cbn [negb].
  - destruct (Validation.check_format url) as [[]|cause] eqn:Hformat.
    + destruct (Validation.check_patterns _ _) as [[]|e'] eqn:Hpat; [discriminate|].
      intros [= <-]. right; right. split; [reflexivity|].
      split; [|apply (check_patterns_raises _ _ _ Hpat)].
      apply check_patterns_raises in Hpat as He.
      clear He. revert Hpat. generalize (lower url). intros u.
      generalize Validation.dangerous_patterns. intros ps.
      induction ps as [|p rest IH]; cbn; [discriminate|].
      destruct (contains p u) eqn:Hc; [intros _; left; exact Hc|].
      intros Hrest. right. exact (IH Hrest).
    + intros [= <-]. right; left. eauto.
  - intros [= <-]. left. split; [|reflexivity].
    destruct url; [reflexivity|discriminate].
Qed.

Lemma validate_url_failure_modes_witness :
  "ftp://example.com/a.mp3" = "" /\
    ValidationError "Invalid URL: URL must use HTTP or HTTPS protocol"
      = ValidationError "URL must be a non-empty string" \/
  (exists cause,
     Validation.check_format "ftp://example.com/a.mp3" = Raise cause /\
     ValidationError "Invalid URL: URL must use HTTP or HTTPS protocol"
       = ValidationError ("Invalid URL: " +:+ str cause)) \/
  Validation.check_format "ftp://example.com/a.mp3" = Ok tt /\
  Exists (fun pattern => contains pattern (lower "ftp://example.com/a.mp3") = true)
    Validation.dangerous_patterns /\
  ValidationError "Invalid URL: URL must use HTTP or HTTPS protocol"
    = ValidationError "Security: Cannot access local/internal resources".
Proof.
  apply (validate_url_failure_modes "ftp://example.com/a.mp3").
  vm_compute. reflexivity.
Defined.

(** ** Language heuristics *)





Lemma hindi_ratio_le (h t : nat) :
  (0 < t)%nat ->
  Qle_bool (inject_Z (Z.of_nat h) / inject_Z (Z.of_nat t)) 0.3 = (10 * h <=? 3 * t)%nat.
Proof.
  intros Ht.
  assert (Hpos : (0 < inject_Z (Z.of_nat t))%Q)
    by (unfold Qlt, inject_Z; cbn [Qnum Qden]; lia).
  destruct (Nat.leb_spec (10 * h) (3 * t)) as [Hle|Hgt].
  - apply Qle_bool_iff. apply Qle_shift_div_r; [exact Hpos|].
    unfold Qle, Qmult, inject_Z. cbn [Qnum Qden]. lia.
  - destruct (Qle_bool _ _) eqn:E; [|reflexivity].
    apply Qle_bool_iff in E. exfalso.
    apply (Qmult_le_compat_r _ _ (inject_Z (Z.of_nat t))) in E;
      [|apply Qlt_le_weak; exact Hpos].
    rewrite Qmult_comm, Qmult_div_r in E.
    + unfold Qle, Qmult, inject_Z in E. cbn [Qnum Qden] in E. lia.
    + intros H0. rewrite H0 in Hpos. exact (Qlt_irrefl _ Hpos).
Qed.

(** X7. [detect_from_text] answers "Unknown" only for a text with no
    Devanagari character and no ASCII letter. Otherwise it answers "Hindi"
    when more than three counted characters in ten are Devanagari and
    "English" in every other case: its last [else] is never reached, since a
    share of at most 0.3 leaves the ASCII letters in the majority. *)
Theorem detect_from_text_decides (text : list Z) :
  let hindi_chars := length (filter (fun cp => Validation.in_hindi_range cp = true) text) in
  let english_chars := length (filter (fun cp => Validation.is_ascii_letter cp = true) text) in
  Validation.detect_from_text text =
    if (hindi_chars + english_chars =? 0)%nat then "Unknown"
    else if (3 * (hindi_chars + english_chars) <? 10 * hindi_chars)%nat then "Hindi"
    else "English".
Proof.
  intros hindi_chars english_chars.
  unfold Validation.detect_from_text.
  destruct text as [|cp text]; [reflexivity|].
  fold hindi_chars english_chars.
  destruct (hindi_chars + english_chars =? 0)%nat eqn:Htotal; [reflexivity|].
  apply Nat.eqb_neq in Htotal.
  rewrite hindi_ratio_le by lia.
  destruct (Nat.leb_spec (10 * hindi_chars) (3 * (hindi_chars + english_chars)))
    as [Hle|Hgt]; cbn [negb].
  - destruct (Nat.ltb_spec (3 * (hindi_chars + english_chars)) (10 * hindi_chars));
      [lia|].
    destruct (Nat.ltb_spec hindi_chars english_chars); [reflexivity|lia].
  - destruct (Nat.ltb_spec (3 * (hindi_chars + english_chars)) (10 * hindi_chars));
      [reflexivity|lia].
Qed.

(** ** Acquisition: what a download does to the file system *)

Section AcquisitionFrame.
Context `{AudioUtils.Externals}.

Lemma cleanup_files (file_path : string) (st : AudioUtils.os_state) :
  AudioUtils.files (AudioUtils.cleanup file_path st)
    = delete file_path (AudioUtils.files st) /\
  AudioUtils.fetched (AudioUtils.cleanup file_path st) = AudioUtils.fetched st.
Proof.
  unfold AudioUtils.cleanup. case_bool_decide as Hex; [split; reflexivity|].
  split; [|reflexivity]. symmetry. apply delete_id.
  destruct (AudioUtils.files st !! file_path) eqn:E; [|reflexivity].
  exfalso. apply Hex. eauto.
Qed.

Lemma receive_frame (temp_path : string) (events : list AudioUtils.stream_event)
    (total_size : N) (st : AudioUtils.os_state) :
  let st' := (AudioUtils.receive temp_path events total_size st).2 in
  AudioUtils.fetched st' = AudioUtils.fetched st /\
  forall path, path <> temp_path ->
    AudioUtils.files st' !! path = AudioUtils.files st !! path.
Proof.
  revert total_size st.
  induction events as [|event events IH]; intros total_size st; cbn zeta.
  - split; reflexivity.
  - destruct event as [len|msg]; cbn [AudioUtils.receive]; [|split; reflexivity].
    destruct (0 <? len)%N; [|apply IH].
    destruct (AudioUtils.MAX_FILE_SIZE <? total_size + len)%N.
    + cbn. split; [reflexivity|]. intros path Hne.
      apply lookup_delete_ne. congruence.
    + destruct (IH (total_size + len)%N (AudioUtils.write temp_path len st))
        as [Hf Hother].
      split; [rewrite Hf; reflexivity|].
      intros path Hne. rewrite (Hother path Hne). cbn.
      apply lookup_alter_ne. congruence.
Qed.

Lemma download_audio_frame (url : string) (st : AudioUtils.os_state) :
  let st' := (AudioUtils.download_audio url st).2 in
  (AudioUtils.fetched st' = AudioUtils.fetched st \/
   AudioUtils.fetched st' = url :: AudioUtils.fetched st) /\
  forall path, path <> AudioUtils.temp_file_name url ->
    AudioUtils.files st' !! path = AudioUtils.files st !! path.
Proof.
  cbn zeta. unfold AudioUtils.download_audio.
  destruct (negb _); [split; [left; reflexivity|reflexivity]|].
  unfold AudioUtils.fetch_to_temp.
  destruct (AudioUtils.requests_get url) as [response|e].
  2:{ destruct e; cbn; split; try (right; reflexivity); reflexivity. }
  destruct (AudioUtils.raise_for_status response) as [[]|e].
  2:{ destruct e; cbn; split; try (right; reflexivity); reflexivity. }
  pose proof (receive_frame (AudioUtils.temp_file_name url) (AudioUtils.body response) 0
                (AudioUtils.open_wb (AudioUtils.temp_file_name url)
                   (AudioUtils.record_fetch url st))) as Hrec.
  cbn zeta in Hrec.
  destruct (AudioUtils.receive _ _ _ _) as [r st1]. cbn [snd] in Hrec.
  destruct Hrec as [Hf Hother].
  assert (Hopen : forall path, path <> AudioUtils.temp_file_name url ->
            AudioUtils.files st1 !! path = AudioUtils.files st !! path).
  { intros path Hne. rewrite (Hother path Hne). cbn.
    apply lookup_insert_ne. congruence. }
  destruct r as [total_size|e].
  - destruct (total_size =? 0)%N; cbn.
    + split; [right; exact Hf|]. intros path Hne.
      rewrite lookup_delete_ne by congruence. apply Hopen. exact Hne.
    + split; [right; exact Hf|exact Hopen].
  - destruct e; cbn; (split; [right; exact Hf|exact Hopen]).
Qed.

(** X8. Whatever the server and the decoder do, [process_audio_from_url]
    ([download_audio], then [load_and_preprocess]) raises nothing but
    [AudioDownloadError]: a [requests] exception, a decoder failure and the
    errors the code raises itself all leave as that one class. *)
Theorem acquisition_raises_only_download_errors
    (url : string) (st st' : AudioUtils.os_state) (e : exn) :
  AudioUtils.process_audio_from_url url st = (Raise e, st') ->
  exists msg, e = AudioDownloadError msg.
Proof.
  unfold AudioUtils.process_audio_from_url, AudioUtils.download_audio.
  destruct (negb _); [intros [= <- _]; eauto|].
  destruct (AudioUtils.fetch_to_temp url st) as [[temp_path|e0] st1].
  - unfold AudioUtils.load_and_preprocess.
    destruct (AudioUtils.decode_and_check temp_path) as [[audio sr]|e1];
      [discriminate|].
    intros [= <- _]. eauto.
  - destruct e0; intros [= <- _]; eauto.
Qed.

End AcquisitionFrame.

Lemma acquisition_raises_only_download_errors_witness :
  exists msg,
    AudioDownloadError "Download failed: Connection broken" = AudioDownloadError msg.
Proof.
  apply (@acquisition_raises_only_download_errors
           (Scenario.externals [AudioUtils.Chunk 4096; AudioUtils.Broken "Connection broken"] 0)
           "https://example.com/a.wav" Scenario.idle
           {| AudioUtils.files := {[ Scenario.temp_path := 4096%N ]};
              AudioUtils.fetched := ["https://example.com/a.wav"] |}).
  vm_compute. reflexivity.
Defined.

(** ** Acquisition: the outcomes of a download *)

Section DownloadOutcomes.
Context `{AudioUtils.Externals}.

(** X9. A body that arrives whole, is not empty and fits under the limit:
    [download_audio] returns the name of the scratch file, which holds
    exactly the bytes received; the fetch is on record. *)
Theorem download_audio_stores_the_body
    (url : string) (st : AudioUtils.os_state) (response : AudioUtils.response)
    (chunks : list N) :
  startswith url "http://" || startswith url "https://" = true ->
  AudioUtils.requests_get url = Ok response ->
  AudioUtils.status_error response = None ->
  AudioUtils.body response = map AudioUtils.Chunk chunks ->
  (0 < Notions.total_len chunks <= AudioUtils.MAX_FILE_SIZE)%N ->
  exists st',
    AudioUtils.download_audio url st = (Ok (AudioUtils.temp_file_name url), st') /\
    AudioUtils.files st' !! AudioUtils.temp_file_name url
      = Some (Notions.total_len chunks) /\
    AudioUtils.fetched st' = url :: AudioUtils.fetched st.
Proof.
  intros Hscheme Hget Hstatus Hbody [Hpos Hfit].
  unfold AudioUtils.download_audio. rewrite Hscheme. cbn [negb].
  unfold AudioUtils.fetch_to_temp. rewrite Hget.
  unfold AudioUtils.raise_for_status. rewrite Hstatus, Hbody.
  rewrite <- (app_nil_r (map AudioUtils.Chunk chunks)).
  rewrite receive_chunks by (rewrite N.add_0_l; exact Hfit).
  cbn [AudioUtils.receive]. rewrite N.add_0_l.
  destruct (Notions.total_len chunks =? 0)%N eqn:Hzero.
  { apply N.eqb_eq in Hzero. lia. }
  eexists. split; [reflexivity|]. split.
  - rewrite written_lookup. cbn. rewrite lookup_insert_eq. cbn. f_equal. lia.
  - rewrite written_fetched. reflexivity.
Qed.

(** X10. A body with no byte in it (no chunk, or empty chunks only):
    [download_audio] raises [AudioDownloadError] and removes the scratch
    file it had created. *)
Theorem download_audio_rejects_empty_body
    (url : string) (st : AudioUtils.os_state) (response : AudioUtils.response)
    (chunks : list N) :
  startswith url "http://" || startswith url "https://" = true ->
  AudioUtils.requests_get url = Ok response ->
  AudioUtils.status_error response = None ->
  AudioUtils.body response = map AudioUtils.Chunk chunks ->
  Notions.total_len chunks = 0%N ->
  AudioUtils.download_audio url st
    = (Raise (AudioDownloadError
         "Unexpected error during download: Downloaded file is empty"),
       {| AudioUtils.files := delete (AudioUtils.temp_file_name url) (AudioUtils.files st);
          AudioUtils.fetched := url :: AudioUtils.fetched st |}).
Proof.
  intros Hscheme Hget Hstatus Hbody Hzero.
  unfold AudioUtils.download_audio. rewrite Hscheme. cbn [negb].
  unfold AudioUtils.fetch_to_temp. rewrite Hget.
  unfold AudioUtils.raise_for_status. rewrite Hstatus, Hbody.
  rewrite <- (app_nil_r (map AudioUtils.Chunk chunks)).
  rewrite receive_chunks by (rewrite N.add_0_l, Hzero; discriminate).
  cbn [AudioUtils.receive]. rewrite N.add_0_l, Hzero. cbn [N.eqb].
  f_equal. unfold AudioUtils.os_remove. f_equal.
  - rewrite written_delete. cbn. apply delete_insert_eq.
  - rewrite written_fetched. reflexivity.
Qed.

(** X11. When the request itself fails, by a [requests] exception or an
    error status, [download_audio] raises "Download failed: ..." and no
    file is created or changed. *)
Theorem download_audio_request_failure
    (url : string) (st : AudioUtils.os_state) (msg : string) :
  startswith url "http://" || startswith url "https://" = true ->
  AudioUtils.requests_get url = Raise (RequestException msg) \/
  (exists response,
     AudioUtils.requests_get url = Ok response /\
     AudioUtils.status_error response = Some msg) ->
  AudioUtils.download_audio url st
    = (Raise (AudioDownloadError ("Download failed: " +:+ msg)),
       {| AudioUtils.files := AudioUtils.files st;
          AudioUtils.fetched := url :: AudioUtils.fetched st |}).
Proof.
  intros Hscheme Hfail.
  unfold AudioUtils.download_audio. rewrite Hscheme. cbn [negb].
  unfold AudioUtils.fetch_to_temp.
  destruct Hfail as [Hget|(response & Hget & Hstatus)]; rewrite Hget.
  - reflexivity.
  - unfold AudioUtils.raise_for_status. rewrite Hstatus. reflexivity.
Qed.

End DownloadOutcomes.

Lemma download_audio_stores_the_body_witness :
  exists st',
    @AudioUtils.download_audio
        (Scenario.externals [AudioUtils.Chunk 4096; AudioUtils.Chunk 0; AudioUtils.Chunk 1000] 0)
        "https://example.com/a.wav" Scenario.idle
      = (Ok Scenario.temp_path, st') /\
    AudioUtils.files st' !! Scenario.temp_path = Some 5096%N /\
    AudioUtils.fetched st' = ["https://example.com/a.wav"].
Proof.
  apply (@download_audio_stores_the_body
           (Scenario.externals
              [AudioUtils.Chunk 4096; AudioUtils.Chunk 0; AudioUtils.Chunk 1000] 0)
           "https://example.com/a.wav" Scenario.idle
           {| AudioUtils.status_error := None;
              AudioUtils.content_type := "audio/wav";
              AudioUtils.body :=
                [AudioUtils.Chunk 4096; AudioUtils.Chunk 0; AudioUtils.Chunk 1000] |}
           [4096; 0; 1000]%N).
  - vm_compute. reflexivity.
  - reflexivity.
  - reflexivity.
  - reflexivity.
  - vm_compute. split; [reflexivity|discriminate].
Defined.

Lemma download_audio_rejects_empty_body_witness :
  @AudioUtils.download_audio
      (Scenario.externals [AudioUtils.Chunk 0; AudioUtils.Chunk 0] 0)
      "https://example.com/a.wav" Scenario.idle
    = (Raise (AudioDownloadError
         "Unexpected error during download: Downloaded file is empty"),
       {| AudioUtils.files := delete Scenario.temp_path ∅;
          AudioUtils.fetched := ["https://example.com/a.wav"] |}).
Proof.
  apply (@download_audio_rejects_empty_body
           (Scenario.externals [AudioUtils.Chunk 0; AudioUtils.Chunk 0] 0)
           "https://example.com/a.wav" Scenario.idle
           {| AudioUtils.status_error := None;
              AudioUtils.content_type := "audio/wav";
              AudioUtils.body := [AudioUtils.Chunk 0; AudioUtils.Chunk 0] |}
           [0; 0]%N); reflexivity.
Defined.

Lemma download_audio_request_failure_witness :
  @AudioUtils.download_audio Scenario.offline "https://example.com/a.wav" Scenario.idle
    = (Raise (AudioDownloadError "Download failed: Connection refused"),
       {| AudioUtils.files := ∅;
          AudioUtils.fetched := ["https://example.com/a.wav"] |}).
Proof.
  apply (@download_audio_request_failure Scenario.offline
           "https://example.com/a.wav" Scenario.idle "Connection refused").
  - vm_compute. reflexivity.
  - left. reflexivity.
Defined.

(** ** Decoding: what a returned waveform satisfies *)

Lemma Qabs_scaled (x max_val : Q) :
  (0 < max_val)%Q -> (Qabs (x / max_val) == Qabs x / max_val)%Q.
Proof.
  intros Hpos. unfold Qdiv. rewrite Qabs_Qmult.
  rewrite (Qabs_pos (/ max_val)); [reflexivity|].
  apply Qlt_le_weak, Qinv_lt_0_compat. exact Hpos.
Qed.

(** The two ways [_normalize_audio] returns: scaled by a positive peak, or
    untouched when every sample is zero. *)
Lemma normalize_audio_cases (audio out : list Q) :
  AudioUtils._normalize_audio audio = Ok out ->
  exists max_val,
    Forall (fun x => Qabs x <= max_val)%Q audio /\
    Exists (fun x => Qabs x == max_val)%Q audio /\
    ((0 < max_val)%Q /\ out = map (fun x => x / max_val)%Q audio \/
     Forall (fun x => x == 0)%Q audio /\ out = audio).
Proof.
  intros Hnorm.
  assert (Hne : audio <> []) by (intros ->; discriminate).
  destruct (abs_max_spec audio Hne) as (max_val & Hmax & Hall & Hex).
  exists max_val. split; [exact Hall|]. split; [exact Hex|].
  unfold AudioUtils._normalize_audio in Hnorm. rewrite Hmax in Hnorm.
  cbn [mbind result_bind bind] in Hnorm.
  destruct (AudioUtils.Qlt_bool 0 max_val) eqn:Hguard; injection Hnorm as <-.
  - left. apply Qlt_bool_iff in Hguard. split; [exact Hguard|reflexivity].
  - right. split; [|reflexivity].
    assert (Hm : (max_val <= 0)%Q).
    { apply Qnot_lt_le. intros Hlt. apply Qlt_bool_iff in Hlt. congruence. }
    eapply Forall_impl; [exact Hall|]. intros x Hx. cbn beta in Hx.
    assert (Habs : (Qabs x <= 0)%Q) by (eapply Qle_trans; eassumption).
    apply Qabs_Qle_condition in Habs. destruct Habs as [Hlo Hhi].
    apply Qle_antisym; assumption.
Qed.

Lemma normalize_audio_range (audio out : list Q) :
  AudioUtils._normalize_audio audio = Ok out ->
  length out = length audio /\ Forall (fun y => -1 <= y <= 1)%Q out.
Proof.
  intros Hnorm.
  destruct (normalize_audio_cases audio out Hnorm)
    as (max_val & Hall & _ & [[Hpos ->]|[Hzero ->]]).
  - split; [apply length_map|].
    rewrite Forall_map. eapply Forall_impl; [exact Hall|].
    intros x Hx. apply scaled_sample_in_range; assumption.
  - split; [reflexivity|].
    eapply Forall_impl; [exact Hzero|]. intros x Hx. cbn beta in Hx.
    rewrite Hx. split; discriminate.
Qed.

(** X12. Whenever [_normalize_audio] returns, the input was not empty, the
    output has as many samples, and every sample lies in [-1, 1]. If some
    input sample is not zero, the largest absolute value of the output is
    exactly 1; if all are zero, the output is the input. *)
Theorem normalize_audio_postcondition (audio out : list Q) :
  AudioUtils._normalize_audio audio = Ok out ->
  audio <> [] /\
  length out = length audio /\
  Forall (fun y => -1 <= y <= 1)%Q out /\
  (Exists (fun x => ~ x == 0)%Q audio -> Exists (fun y => Qabs y == 1)%Q out) /\
  (Forall (fun x => x == 0)%Q audio -> out = audio).
Proof.
  intros Hnorm.
  split; [intros ->; discriminate|].
  destruct (normalize_audio_range audio out Hnorm) as [Hlen Hrange].
  split; [exact Hlen|]. split; [exact Hrange|].
  destruct (normalize_audio_cases audio out Hnorm)
    as (max_val & Hall & Hex & [[Hpos ->]|[Hzero ->]]).
  - split.
    + intros _. rewrite Exists_map. eapply Exists_impl; [exact Hex|].
      intros x Hx. cbn beta in *. rewrite Qabs_scaled by exact Hpos. rewrite Hx.
      apply Qmult_inv_r. intros Hzero. rewrite Hzero in Hpos.
      exact (Qlt_irrefl 0 Hpos).
    + intros Hzero. exfalso.
      apply Exists_exists in Hex. destruct Hex as (x & Hin & Hx).
      rewrite Forall_forall in Hzero. rewrite <- Hx, (Hzero x Hin) in Hpos.
      exact (Qlt_irrefl 0 Hpos).
  - split; [|intros _; reflexivity].
    intros Hnz. exfalso.
    apply Exists_exists in Hnz. destruct Hnz as (x & Hin & Hx).
    rewrite Forall_forall in Hzero. exact (Hx (Hzero x Hin)).
Qed.

Lemma normalize_audio_postcondition_witness :
  let audio := [1 # 2; - (3 # 4); 0]%Q in
  let out := [(1 # 2) / (3 # 4); - (3 # 4) / (3 # 4); 0 / (3 # 4)]%Q in
  audio <> [] /\
  length out = length audio /\
  Forall (fun y => -1 <= y <= 1)%Q out /\
  (Exists (fun x => ~ x == 0)%Q audio -> Exists (fun y => Qabs y == 1)%Q out) /\
  (Forall (fun x => x == 0)%Q audio -> out = audio).
Proof.
  intros audio out. apply normalize_audio_postcondition. reflexivity.
Defined.

Section DecodingPostcondition.
Context `{AudioUtils.Externals}.

(** X13. Every waveform [load_and_preprocess] returns is the decoder's
    output normalised: it has the same number of samples, at least one and
    at least half a second at the returned rate, and all of them lie in
    [-1, 1]. *)
Theorem load_and_preprocess_postcondition
    (file_path : string) (audio : list Q) (sr : Z) :
  AudioUtils.load_and_preprocess file_path = Ok (audio, sr) ->
  exists raw,
    AudioUtils.librosa_load file_path AudioUtils.TARGET_SAMPLE_RATE = Ok (raw, sr) /\
    AudioUtils._normalize_audio raw = Ok audio /\
    length audio = length raw /\
    (0 < length audio)%nat /\
    (inject_Z sr * 0.5 <= inject_Z (Z.of_nat (length audio)))%Q /\
    Forall (fun y => -1 <= y <= 1)%Q audio.
Proof.
  unfold AudioUtils.load_and_preprocess, AudioUtils.decode_and_check.
  destruct (AudioUtils.librosa_load _ _) as [[raw sr']|e]; [|discriminate].
  cbn [mbind result_bind bind].
  destruct (length raw =? 0)%nat eqn:Hlen; [discriminate|].
  apply Nat.eqb_neq in Hlen.
  destruct (AudioUtils.Qlt_bool _ _) eqn:Hshort; [discriminate|].
  destruct (AudioUtils._normalize_audio raw) as [out|e] eqn:Hnorm; [|discriminate].
  cbn [mbind result_bind bind]. intros [= <- <-].
  destruct (normalize_audio_range raw out Hnorm) as [Hsame Hrange].
  exists raw. split; [reflexivity|]. split; [exact Hnorm|].
  split; [exact Hsame|]. split; [lia|]. split; [|exact Hrange].
  rewrite Hsame. apply Qnot_lt_le. intros Hlt.
  apply Qlt_bool_iff in Hlt. congruence.
Qed.

End DecodingPostcondition.

Lemma load_and_preprocess_postcondition_witness :
  let audio := repeat ((1 # 2) / (1 # 2))%Q (Z.to_nat 8000) in
  exists raw,
    @AudioUtils.librosa_load (Scenario.externals [] (Z.to_nat 8000))
        Scenario.temp_path AudioUtils.TARGET_SAMPLE_RATE = Ok (raw, 16000%Z) /\
    AudioUtils._normalize_audio raw = Ok audio /\
    length audio = length raw /\
    (0 < length audio)%nat /\
    (inject_Z 16000 * 0.5 <= inject_Z (Z.of_nat (length audio)))%Q /\
    Forall (fun y => -1 <= y <= 1)%Q audio.
Proof.
  intros audio.
  apply (@load_and_preprocess_postcondition (Scenario.externals [] (Z.to_nat 8000))).
  vm_compute. reflexivity.
Defined.

(** ** A request and the file system *)

Section RequestFrame.
Context `{AudioUtils.Externals} `{FeatureExtractor.SignalLib}
        `{Classifier.Sklearn} `{Inference.Builtins}.

Lemma process_audio_from_url_frame (url : string) (st : AudioUtils.os_state)
    (path : string) :
  path <> AudioUtils.temp_file_name url ->
  AudioUtils.files (AudioUtils.process_audio_from_url url st).2 !! path
    = AudioUtils.files st !! path.
Proof.
  intros Hne.
  pose proof (download_audio_frame url st) as [_ Hother]. cbn zeta in Hother.
  unfold AudioUtils.process_audio_from_url.
  destruct (AudioUtils.download_audio url st) as [[temp_path|e] st1] eqn:Hdl;
    cbn [snd] in *; [|apply Hother; exact Hne].
  assert (Htemp : temp_path = AudioUtils.temp_file_name url).
  { unfold AudioUtils.download_audio in Hdl.
    destruct (negb _); [discriminate|].
    unfold AudioUtils.fetch_to_temp in Hdl.
    destruct (AudioUtils.requests_get url); [|destruct e; discriminate].
    destruct (AudioUtils.raise_for_status _); [|destruct e; discriminate].
    destruct (AudioUtils.receive _ _ _ _) as [[total_size|e] st2];
      [|destruct e; discriminate].
    destruct (total_size =? 0)%N; [discriminate|].
    injection Hdl as <- _. reflexivity. }
  destruct (AudioUtils.load_and_preprocess temp_path) as [[audio sr]|e]; cbn [snd].
  - apply Hother. exact Hne.
  - destruct (truthy temp_path); [|apply Hother; exact Hne].
    destruct (cleanup_files temp_path st1) as [-> _].
    rewrite lookup_delete_ne by congruence. apply Hother. exact Hne.
Qed.

Lemma process_audio_from_url_returns_temp_path
    (url : string) (st st' : AudioUtils.os_state) (audio : list Q) (sr : Z)
    (temp_path : string) :
  AudioUtils.process_audio_from_url url st = (Ok (audio, sr, temp_path), st') ->
  temp_path = AudioUtils.temp_file_name url.
Proof.
  unfold AudioUtils.process_audio_from_url, AudioUtils.download_audio.
  destruct (negb _); [discriminate|].
  unfold AudioUtils.fetch_to_temp.
  destruct (AudioUtils.requests_get url); [|destruct e; discriminate].
  destruct (AudioUtils.raise_for_status _); [|destruct e; discriminate].
  destruct (AudioUtils.receive _ _ _ _) as [[total_size|e] st2];
    [|destruct e; discriminate].
  destruct (total_size =? 0)%N; [discriminate|].
  destruct (AudioUtils.load_and_preprocess _) as [[audio' sr']|e]; [|discriminate].
  intros [= _ _ <- _]. reflexivity.
Qed.

(** X14. A request to [/predict] touches no file but its own scratch file:
    every other file is, at the end, as it was at the start, whatever the
    URL, the server, the decoder and the classifier do. *)
Theorem request_touches_only_its_scratch_file
    (engine : Inference.t) (audio_url : string) (st : AudioUtils.os_state)
    (path : string) :
  path <> AudioUtils.temp_file_name audio_url ->
  AudioUtils.files (Api.predict_voice engine audio_url st).2 !! path
    = AudioUtils.files st !! path.
Proof.
  intros Hne. unfold Api.predict_voice.
  destruct (Validation.validate_url audio_url); [|reflexivity].
  pose proof (process_audio_from_url_frame audio_url st path Hne) as Hproc.
  unfold Inference.predict.
  destruct (AudioUtils.process_audio_from_url audio_url st)
    as [[[[audio sr] temp_path]|e] st1] eqn:Hp; cbn [snd] in *.
  - apply process_audio_from_url_returns_temp_path in Hp. subst temp_path.
    destruct (Inference.classify_and_explain _ _ _ _);
      (destruct (truthy _); cbn [snd]; [|exact Hproc]);
      destruct (cleanup_files (AudioUtils.temp_file_name audio_url) st1) as [-> _];
      rewrite lookup_delete_ne by congruence; exact Hproc.
  - exact Hproc.
Qed.

(** X15. When the body of the response arrives without a network error,
    [predict] leaves the file system as it found it, the scratch file
    removed: this holds whether the download is refused for its size or for
    being empty, the decoder fails, the classification fails or a
    prediction is returned. *)
Theorem predict_restores_the_file_system
    (self : Inference.t) (url : string) (st : AudioUtils.os_state)
    (response : AudioUtils.response) (chunks : list N) :
  truthy (AudioUtils.temp_file_name url) = true ->
  AudioUtils.requests_get url = Ok response ->
  AudioUtils.status_error response = None ->
  AudioUtils.body response = map AudioUtils.Chunk chunks ->
  startswith url "http://" || startswith url "https://" = true ->
  AudioUtils.files (Inference.predict self url st).2
    = delete (AudioUtils.temp_file_name url) (AudioUtils.files st).
Proof.
  intros Htruthy Hget Hstatus Hbody Hscheme.
  apply map_eq. intros path.
  destruct (decide (path = AudioUtils.temp_file_name url)) as [->|Hne].
  - rewrite lookup_delete_eq.
    eapply temp_file_removed_when_body_arrives; eassumption.
  - rewrite lookup_delete_ne by congruence.
    pose proof (process_audio_from_url_frame url st path Hne) as Hproc.
    unfold Inference.predict.
    destruct (AudioUtils.process_audio_from_url url st)
      as [[[[audio sr] temp_path]|e] st1] eqn:Hp; cbn [snd] in *; [|exact Hproc].
    apply process_audio_from_url_returns_temp_path in Hp. subst temp_path.
    rewrite Htruthy.
    destruct (cleanup_files (AudioUtils.temp_file_name url) st1) as [-> _].
    rewrite lookup_delete_ne by congruence. exact Hproc.
Qed.

End RequestFrame.

Lemma request_touches_only_its_scratch_file_witness :
  let st := {| AudioUtils.files := {[ "/tmp/other.tmp" := 7%N ]};
               AudioUtils.fetched := [] |} in
  AudioUtils.files
    (@Api.predict_voice
       (Scenario.externals [AudioUtils.Chunk 4096; AudioUtils.Broken "Connection broken"] 0)
       Scenario.signal_lib Scenario.sklearn Scenario.builtins
       (Scenario.engine 1 0.9) "https://example.com/a.wav" st).2 !! "/tmp/other.tmp"
    = AudioUtils.files st !! "/tmp/other.tmp".
Proof.
  intros st.
  apply (@request_touches_only_its_scratch_file
           (Scenario.externals [AudioUtils.Chunk 4096; AudioUtils.Broken "Connection broken"] 0)
           Scenario.signal_lib Scenario.sklearn Scenario.builtins).
  vm_compute. discriminate.
Defined.

Lemma predict_restores_the_file_system_witness :
  AudioUtils.files
    (@Inference.predict
       (Scenario.externals [AudioUtils.Chunk 4096] (Z.to_nat 8000))
       Scenario.signal_lib Scenario.sklearn Scenario.builtins
       (Scenario.engine 1 0.9) "https://example.com/a.wav" Scenario.idle).2
    = delete Scenario.temp_path ∅.
Proof.
  apply (@predict_restores_the_file_system
           (Scenario.externals [AudioUtils.Chunk 4096] (Z.to_nat 8000))
           Scenario.signal_lib Scenario.sklearn Scenario.builtins
           (Scenario.engine 1 0.9) "https://example.com/a.wav" Scenario.idle
           {| AudioUtils.status_error := None;
              AudioUtils.content_type := "audio/wav";
              AudioUtils.body := [AudioUtils.Chunk 4096] |}
           [4096%N]); reflexivity.
Defined.

(** ** Feature vectors for any number of MFCC coefficients *)

Lemma get_feature_names_length (self : FeatureExtractor.t) :
  length (FeatureExtractor.get_feature_names self)
    = (4 * (Z.to_nat (FeatureExtractor.n_mfcc self) + 16))%nat.
Proof.
  unfold FeatureExtractor.get_feature_names. cbn zeta.
  rewrite !length_app.
  rewrite !flat_map_length_4 by reflexivity.
  unfold FeatureExtractor.range. rewrite !length_seq. cbn [length]. lia.
Qed.

Section AnyExtractor.
Context `{FeatureExtractor.SignalLib}.

Lemma compute_statistics_length (m : FeatureExtractor.matrix) :
  length (FeatureExtractor._compute_statistics m) = (4 * length m)%nat.
Proof.
  rewrite compute_statistics_flat_map. apply flat_map_length_4. reflexivity.
Qed.

Lemma extract_features_length
    (self : FeatureExtractor.t) (audio : list Q) (sr : Z) (features : list float) :
  Notions.documented_shapes ->
  FeatureExtractor.extract_features self audio sr = Ok features ->
  length features = (4 * (Z.to_nat (FeatureExtractor.n_mfcc self) + 16))%nat.
Proof.
  intros (Hm & Hc & Hr & Hz & Hb & Hk).
  unfold FeatureExtractor.extract_features. cbn zeta.
  destruct (FeatureExtractor.mfcc _ _ _ _ _) as [m|] eqn:Em; [|discriminate].
  cbn [mbind result_bind bind].
  destruct (FeatureExtractor.spectral_centroid _ _ _ _) as [c|] eqn:Ec; [|discriminate].
  cbn [mbind result_bind bind].
  destruct (FeatureExtractor.spectral_rolloff _ _ _ _) as [r|] eqn:Er; [|discriminate].
  cbn [mbind result_bind bind].
  destruct (FeatureExtractor.zero_crossing_rate _ _ _) as [z|] eqn:Ez; [|discriminate].
  cbn [mbind result_bind bind].
  destruct (FeatureExtractor.spectral_bandwidth _ _ _ _) as [b|] eqn:Eb; [|discriminate].
  cbn [mbind result_bind bind].
  destruct (FeatureExtractor.chroma_stft _ _ _ _) as [k|] eqn:Ek; [|discriminate].
  cbn [mbind result_bind bind].
  intros [= <-].
  rewrite !length_app, !compute_statistics_length.
  rewrite (Hm _ _ _ _ _ _ Em), (Hc _ _ _ _ _ Ec), (Hr _ _ _ _ _ Er),
    (Hz _ _ _ _ Ez), (Hb _ _ _ _ _ Eb), (Hk _ _ _ _ _ Ek).
  cbn [length]. lia.
Qed.

(** X16. For every extractor, whatever its number of MFCC coefficients:
    when librosa returns matrices of the documented shapes, the vector
    [extract_features] returns has as many entries as [get_feature_names]
    has names, four for each of the [n_mfcc + 16] rows. *)
Theorem features_and_names_have_the_same_length
    (self : FeatureExtractor.t) (audio : list Q) (sr : Z) (features : list float) :
  Notions.documented_shapes ->
  FeatureExtractor.extract_features self audio sr = Ok features ->
  length features = length (FeatureExtractor.get_feature_names self) /\
  length features = (4 * (Z.to_nat (FeatureExtractor.n_mfcc self) + 16))%nat.
Proof.
  intros Hshapes Hfeatures.
  rewrite get_feature_names_length.
  split; apply (extract_features_length self audio sr features Hshapes Hfeatures).
Qed.

Context `{FeatureExtractor.FileLoader}.

(** X17. [extract_batch_features] never raises: a file that cannot be
    loaded or analysed is left out. It returns at most one vector per file,
    and with librosa's documented shapes every vector has the same length,
    so the batch is a rectangular matrix. *)
Theorem extract_batch_features_is_rectangular
    (self : FeatureExtractor.t) (audio_files : list string) (sr : Z) :
  Notions.documented_shapes ->
  (length (FeatureExtractor.extract_batch_features self audio_files sr)
     <= length audio_files)%nat /\
  Forall (fun features =>
            length features = (4 * (Z.to_nat (FeatureExtractor.n_mfcc self) + 16))%nat)
    (FeatureExtractor.extract_batch_features self audio_files sr).
Proof.
  intros Hshapes.
  induction audio_files as [|file_path rest [IHlen IHall]]; [split; [reflexivity|constructor]|].
  cbn [FeatureExtractor.extract_batch_features].
  destruct (FeatureExtractor.load_and_extract self file_path sr) as [features|e] eqn:Hone.
  - split; [cbn [length]; lia|]. constructor; [|exact IHall].
    unfold FeatureExtractor.load_and_extract in Hone.
    destruct (FeatureExtractor.librosa_load_file file_path sr) as [[audio sr']|e];
      [|discriminate].
    cbn [mbind result_bind bind] in Hone.
    exact (extract_features_length self audio sr features Hshapes Hone).
  - split; [cbn [length]; lia|exact IHall].
Qed.

End AnyExtractor.

Lemma scenario_shapes : @Notions.documented_shapes Scenario.signal_lib.
Proof.
  unfold Notions.documented_shapes. cbn.
  repeat split; intros; simplify_eq; unfold Scenario.frames;
    rewrite ?repeat_length; reflexivity.
Qed.

Lemma features_and_names_have_the_same_length_witness :
  let self := {| FeatureExtractor.n_mfcc := 20; FeatureExtractor.n_fft := 1024;
                 FeatureExtractor.hop_length := 256; FeatureExtractor.n_mels := 64 |} in
  let features := concat (repeat [0.25; 0; 0.25; 0.25]%float 36) in
  length features = length (FeatureExtractor.get_feature_names self) /\
  length features = (4 * (Z.to_nat (FeatureExtractor.n_mfcc self) + 16))%nat.
Proof.
  intros self features.
  apply (@features_and_names_have_the_same_length Scenario.signal_lib self
           [1 # 2; - (3 # 4); 0]%Q 16000 features scenario_shapes).
  vm_compute. reflexivity.
Defined.

Lemma extract_batch_features_is_rectangular_witness :
  let files := ["data/human/a.wav"; "data/human/corrupt.mp3"; "data/human/b.wav"] in
  (length (@FeatureExtractor.extract_batch_features Scenario.signal_lib
             Scenario.file_loader FeatureExtractor.default files 16000)
     <= length files)%nat /\
  Forall (fun features =>
            length features
              = (4 * (Z.to_nat (FeatureExtractor.n_mfcc FeatureExtractor.default) + 16))%nat)
    (@FeatureExtractor.extract_batch_features Scenario.signal_lib
       Scenario.file_loader FeatureExtractor.default files 16000).
Proof.
  intros files.
  apply (@extract_batch_features_is_rectangular Scenario.signal_lib Scenario.file_loader).
  exact scenario_shapes.
Defined.

(** ** The classifier *)

Lemma index_lookup {A : Type} (xs : list A) (i : nat) (x : A) :
  Classifier.index xs i = Ok x -> xs !! i = Some x.
Proof. unfold Classifier.index. destruct (xs !! i); [intros [= ->]; reflexivity|discriminate]. Qed.

Section ClassifierProperties.
Context `{Classifier.Sklearn}.

(** X18. Whenever [VoiceClassifier.predict] returns, the classifier is
    trained, the label is one of its class names, and the confidence is
    the entry of the forest's probability vector at the predicted class. *)
Theorem predict_returns_a_class_name
    (self : Classifier.t) (features : list float) (label : string) (confidence : float) :
  Classifier.predict self features = Ok (label, confidence) ->
  Classifier.trained self = true /\
  label ∈ Classifier.class_names self /\
  exists (prediction : nat) (predictions : list nat) (probabilities : list float)
         (all_probabilities : list (list float)),
    Classifier.forest_predict (Classifier.model self) [features] = Ok predictions /\
    predictions !! 0%nat = Some prediction /\
    Classifier.forest_predict_proba (Classifier.model self) [features]
      = Ok all_probabilities /\
    all_probabilities !! 0%nat = Some probabilities /\
    Classifier.class_names self !! prediction = Some label /\
    probabilities !! prediction = Some confidence.
Proof.
  unfold Classifier.predict.
  destruct (Classifier.trained self); cbn [negb]; [|discriminate].
  destruct (Classifier.forest_predict _ _) as [predictions|] eqn:Hp; [|discriminate].
  cbn [mbind result_bind bind].
  destruct (Classifier.index predictions 0) as [prediction|] eqn:Hp0; [|discriminate].
  cbn [mbind result_bind bind].
  destruct (Classifier.forest_predict_proba _ _) as [all_probabilities|] eqn:Hq;
    [|discriminate].
  cbn [mbind result_bind bind].
  destruct (Classifier.index all_probabilities 0) as [probabilities|] eqn:Hq0;
    [|discriminate].
  cbn [mbind result_bind bind].
  destruct (Classifier.index (Classifier.class_names self) prediction) as [l|] eqn:Hl;
    [|discriminate].
  cbn [mbind result_bind bind].
  destruct (Classifier.index probabilities prediction) as [c|] eqn:Hc; [|discriminate].
  cbn [mbind result_bind bind]. intros [= <- <-].
  apply index_lookup in Hp0, Hq0, Hl, Hc.
  split; [reflexivity|]. split; [eapply list_elem_of_lookup_2; exact Hl|].
  exists prediction, predictions, probabilities, all_probabilities.
  repeat split; assumption.
Qed.

End ClassifierProperties.

Section ArtifactStore.
Context `{Classifier.Joblib}.


(** X20. The last save wins: after two trained classifiers are saved under
    the same path, loading returns the second, provided joblib reads back
    what it wrote. *)
Theorem save_model_overwrites
    (first second : Classifier.t) (model_path : string)
    (disk : gmap string Classifier.blob) :
  (forall data, Classifier.joblib_load (Classifier.joblib_dump data) = Ok data) ->
  Classifier.trained first = true ->
  Classifier.trained second = true ->
  Classifier.load_model model_path
    (Classifier.save_model second model_path
       (Classifier.save_model first model_path disk).2).2
    = Ok second.
Proof.
  intros Hcodec Hfirst Hsecond.
  unfold Classifier.save_model. rewrite Hfirst, Hsecond. cbn [negb snd].
  unfold Classifier.load_model. rewrite lookup_insert_eq, Hcodec.
  cbn. destruct second. cbn in *. subst. reflexivity.
Qed.

End ArtifactStore.

Lemma predict_returns_a_class_name_witness :
  Classifier.trained (Scenario.classifier 1 0.9) = true /\
  "AI_GENERATED" ∈ Classifier.class_names (Scenario.classifier 1 0.9) /\
  exists (prediction : nat) (predictions : list nat) (probabilities : list float)
         (all_probabilities : list (list float)),
    @Classifier.forest_predict Scenario.sklearn
        (Classifier.model (Scenario.classifier 1 0.9)) [[0.25%float]] = Ok predictions /\
    predictions !! 0%nat = Some prediction /\
    @Classifier.forest_predict_proba Scenario.sklearn
        (Classifier.model (Scenario.classifier 1 0.9)) [[0.25%float]]
      = Ok all_probabilities /\
    all_probabilities !! 0%nat = Some probabilities /\
    Classifier.class_names (Scenario.classifier 1 0.9) !! prediction = Some "AI_GENERATED" /\
    probabilities !! prediction = Some 0.9%float.
Proof.
  apply (@predict_returns_a_class_name Scenario.sklearn
           (Scenario.classifier 1 0.9) [0.25%float]).
  vm_compute. reflexivity.
Defined.


Lemma save_model_overwrites_witness :
  @Classifier.load_model Scenario.sklearn Scenario.joblib "model/voice_model.pkl"
      (@Classifier.save_model Scenario.sklearn Scenario.joblib
         (Scenario.classifier 1 0.9) "model/voice_model.pkl"
         (@Classifier.save_model Scenario.sklearn Scenario.joblib
            (Scenario.classifier 0 0.6) "model/voice_model.pkl" ∅).2).2
    = Ok (Scenario.classifier 1 0.9).
Proof.
  apply (@save_model_overwrites Scenario.sklearn Scenario.joblib).
  - intros data. reflexivity.
  - reflexivity.
  - reflexivity.
Defined.

(** ** The decision policy and its explanations *)

Lemma float_ltb_antisym (x y : float) :
  (x <? y)%float = true -> (y <? x)%float = false.
Proof.
  rewrite !FloatAxioms.ltb_spec. unfold SFltb.
  destruct (SFcompare (Prim2SF x) (Prim2SF y)) as [c|] eqn:E; [|discriminate].
  apply SFcompare_antisym in E. rewrite E.
  destruct c; simpl; (reflexivity || discriminate).
Qed.

Lemma SFcompare_finite_Eq (x : spec_float) (s : bool) (m : positive) (e : Z) :
  SFcompare x (S754_finite s m e) = Some Eq -> x = S754_finite s m e.
Proof.
  destruct x as [sx|sx| |sx mx ex]; simpl.
  - destruct s; discriminate.
  - destruct sx; discriminate.
  - discriminate.
  - destruct sx, s; try discriminate;
      destruct (ex ?= e)%Z eqn:He; try discriminate;
      apply Z.compare_eq in He; subst ex; intros [= Hm].
    + destruct (Pos.compare_cont Eq mx m) eqn:Hc; try discriminate.
      apply Pos.compare_eq in Hc. subst mx. reflexivity.
    + apply Pos.compare_eq in Hm. subst mx. reflexivity.
Qed.

Lemma SFcompare_finite_None (x : spec_float) (s : bool) (m : positive) (e : Z) :
  SFcompare x (S754_finite s m e) = None -> x = S754_nan.
Proof.
  destruct x as [sx|sx| |sx mx ex]; simpl; try discriminate; reflexivity.
Qed.

Lemma SFcompare_nan_r (x : spec_float) : SFcompare x S754_nan = None.
Proof. destruct x; reflexivity. Qed.

Lemma is_nan_spec (c : float) : PrimFloat.is_nan c = true <-> Prim2SF c = S754_nan.
Proof.
  unfold PrimFloat.is_nan. rewrite FloatAxioms.eqb_spec. unfold SFeqb.
  split.
  - destruct (Prim2SF c) as [s|s| |s m e]; simpl; try discriminate; try reflexivity.
    + destruct s; discriminate.
    + destruct s; rewrite Z.compare_refl, Pos.compare_cont_refl; discriminate.
  - intros ->. reflexivity.
Qed.

(** A float neither below nor above 0.85 is 0.85 itself or not a number. *)
Lemma float_at_threshold (c : float) :
  (c <? 0.85)%float = false ->
  (0.85 <? c)%float = false ->
  c = 0.85%float \/ PrimFloat.is_nan c = true.
Proof.
  rewrite !FloatAxioms.ltb_spec. unfold SFltb.
  assert (Hk : exists m e, Prim2SF 0.85 = S754_finite false m e)
    by (eexists _, _; vm_compute; reflexivity).
  destruct Hk as (m & e & Hk).
  intros Hlt Hgt.
  destruct (SFcompare (Prim2SF c) (Prim2SF 0.85)) as [cmp|] eqn:E.
  - pose proof (SFcompare_antisym _ _ _ E) as E'. rewrite E' in Hgt.
    destruct cmp; try discriminate. left.
    apply Prim2SF_inj. rewrite Hk in E |- *.
    apply SFcompare_finite_Eq. exact E.
  - right. apply is_nan_spec. rewrite Hk in E.
    apply (SFcompare_finite_None _ _ _ _ E).
Qed.

Section Explanations.
Context `{FeatureExtractor.SignalLib} `{Classifier.Sklearn} `{Inference.Builtins}.

(** X21. A prediction the safety threshold downgrades (AI_GENERATED with
    confidence below 0.85) is reported as HUMAN and explained with a
    human-voice text chosen by the confidence the classifier had in
    AI_GENERATED: "Likely human voice with moderate confidence" above 0.65,
    "Possible human voice with low confidence" otherwise, and never the
    high-confidence text. *)
Theorem downgraded_prediction_is_explained_as_human
    (self : Inference.t) (audio : list Q) (sr : Z) (temp_path : string)
    (features : list float) (c : float) :
  FeatureExtractor.extract_features (Inference.feature_extractor self) audio sr
    = Ok features ->
  Classifier.predict (Inference.model self) features = Ok ("AI_GENERATED", c) ->
  (c <? 0.85)%float = true ->
  exists p,
    Inference.classify_and_explain self audio sr temp_path = Ok p /\
    Inference.label p = "HUMAN" /\
    Inference.confidence p = Inference.round c 4 /\
    Inference.fraud_risk_explanation p
      = (if (0.65 <? c)%float then Notions.human_moderate else Notions.human_low).
Proof.
  intros Hfe Hcl Hlow.
  unfold Inference.classify_and_explain. rewrite Hfe. cbn [mbind result_bind bind].
  rewrite Hcl. cbn [mbind result_bind bind].
  eexists. split; [reflexivity|]. cbn [Inference.label Inference.confidence
    Inference.fraud_risk_explanation].
  unfold Inference.safety_threshold. rewrite Hlow. cbn [String.eqb Ascii.eqb andb Bool.eqb].
  split; [reflexivity|]. split; [reflexivity|].
  unfold Inference._generate_explanation.
  change (String.eqb "HUMAN" "AI_GENERATED") with false. cbn iota.
  rewrite (float_ltb_antisym _ _ Hlow).
  destruct (0.65 <? c)%float; reflexivity.
Qed.

(** X22. A prediction reported as AI_GENERATED (confidence not below 0.85)
    gets the high-confidence text whenever the confidence exceeds 0.85.
    The moderate text is produced only for a confidence of exactly 0.85,
    and the low-confidence text only when the confidence is not a number. *)
Theorem reported_ai_prediction_explanations
    (self : Inference.t) (audio : list Q) (sr : Z) (temp_path : string)
    (features : list float) (c : float) :
  FeatureExtractor.extract_features (Inference.feature_extractor self) audio sr
    = Ok features ->
  Classifier.predict (Inference.model self) features = Ok ("AI_GENERATED", c) ->
  (c <? 0.85)%float = false ->
  exists p,
    Inference.classify_and_explain self audio sr temp_path = Ok p /\
    Inference.label p = "AI_GENERATED" /\
    ((0.85 <? c)%float = true /\ Inference.fraud_risk_explanation p = Notions.ai_high \/
     c = 0.85%float /\ Inference.fraud_risk_explanation p = Notions.ai_moderate \/
     PrimFloat.is_nan c = true /\ Inference.fraud_risk_explanation p = Notions.ai_low).
Proof.
  intros Hfe Hcl Hnot.
  unfold Inference.classify_and_explain. rewrite Hfe. cbn [mbind result_bind bind].
  rewrite Hcl. cbn [mbind result_bind bind].
  eexists. split; [reflexivity|]. cbn [Inference.label Inference.fraud_risk_explanation].
  unfold Inference.safety_threshold. rewrite Hnot.
  change (String.eqb "AI_GENERATED" "AI_GENERATED") with true. cbn [andb].
  split; [reflexivity|].
  unfold Inference._generate_explanation.
  change (String.eqb "AI_GENERATED" "AI_GENERATED") with true. cbn iota.
  destruct (0.85 <? c)%float eqn:Hhigh; [left; split; reflexivity|].
  right. destruct (float_at_threshold c Hnot Hhigh) as [->|Hnan].
  - left. split; reflexivity.
  - right. split; [exact Hnan|].
    assert (Hmod : (0.65 <? c)%float = false).
    { apply is_nan_spec in Hnan. rewrite FloatAxioms.ltb_spec, Hnan.
      unfold SFltb. rewrite SFcompare_nan_r. reflexivity. }
    rewrite Hmod. reflexivity.
Qed.

End Explanations.

Lemma downgraded_prediction_is_explained_as_human_witness :
  exists p,
    @Inference.classify_and_explain Scenario.signal_lib Scenario.sklearn Scenario.builtins
        (Scenario.engine 1 0.84) [1 # 2; - (3 # 4); 0]%Q 16000 Scenario.temp_path = Ok p /\
    Inference.label p = "HUMAN" /\
    Inference.confidence p = @Inference.round Scenario.builtins 0.84 4 /\
    Inference.fraud_risk_explanation p
      = (if (0.65 <? 0.84)%float then Notions.human_moderate else Notions.human_low).
Proof.
  eapply (@downgraded_prediction_is_explained_as_human
            Scenario.signal_lib Scenario.sklearn Scenario.builtins
            (Scenario.engine 1 0.84)).
  - vm_compute. reflexivity.
  - vm_compute. reflexivity.
  - vm_compute. reflexivity.
Defined.

Lemma reported_ai_prediction_explanations_witness :
  exists p,
    @Inference.classify_and_explain Scenario.signal_lib Scenario.sklearn Scenario.builtins
        (Scenario.engine 1 0.85) [1 # 2; - (3 # 4); 0]%Q 16000 Scenario.temp_path = Ok p /\
    Inference.label p = "AI_GENERATED" /\
    ((0.85 <? 0.85)%float = true /\ Inference.fraud_risk_explanation p = Notions.ai_high \/
     0.85%float = 0.85%float /\ Inference.fraud_risk_explanation p = Notions.ai_moderate \/
     PrimFloat.is_nan 0.85 = true /\ Inference.fraud_risk_explanation p = Notions.ai_low).
Proof.
  eapply (@reported_ai_prediction_explanations
            Scenario.signal_lib Scenario.sklearn Scenario.builtins
            (Scenario.engine 1 0.85)).
  - vm_compute. reflexivity.
  - vm_compute. reflexivity.
  - vm_compute. reflexivity.
Defined.

(** ** The [/predict] route *)

Section Route.
Context `{AudioUtils.Externals} `{FeatureExtractor.SignalLib}
        `{Classifier.Sklearn} `{Inference.Builtins}.

Lemma process_audio_from_url_raises
    (url : string) (st st' : AudioUtils.os_state) (e : exn) :
  AudioUtils.process_audio_from_url url st = (Raise e, st') ->
  e = AudioDownloadError (str e).
Proof.
  unfold AudioUtils.process_audio_from_url, AudioUtils.download_audio.
  destruct (negb _); [intros [= <- _]; reflexivity|].
  destruct (AudioUtils.fetch_to_temp url st) as [[temp_path|e0] st1].
  - unfold AudioUtils.load_and_preprocess.
    destruct (AudioUtils.decode_and_check temp_path) as [[audio sr]|e1];
      [discriminate|].
    intros [= <- _]. reflexivity.
  - destruct e0; intros [= <- _]; reflexivity.
Qed.

(** X23. Once the URL has passed validation, every failure to fetch or
    decode the audio is answered 400 with the tag "AudioDownloadError" and
    the message of the exception, never 500. *)
Theorem acquisition_failures_are_answered_400
    (engine : Inference.t) (audio_url : string) (st st' : AudioUtils.os_state)
    (e : exn) :
  Validation.validate_url audio_url = Ok true ->
  AudioUtils.process_audio_from_url audio_url st = (Raise e, st') ->
  Api.predict_voice engine audio_url st
    = (Api.HTTPException 400 "AudioDownloadError" (str e), st').
Proof.
  intros Hvalid Hfail.
  unfold Api.predict_voice, Inference.predict. rewrite Hvalid, Hfail.
  rewrite (process_audio_from_url_raises _ _ _ _ Hfail). reflexivity.
Qed.

(** X24. A URL that [validate_url] accepts but that does not start with
    the lowercase "http://" or "https://" is answered 400
    "AudioDownloadError", with nothing fetched and no file created. *)
Theorem accepted_url_with_other_spelling_is_answered_400
    (engine : Inference.t) (audio_url : string) (st : AudioUtils.os_state) :
  Validation.validate_url audio_url = Ok true ->
  startswith audio_url "http://" = false ->
  startswith audio_url "https://" = false ->
  Api.predict_voice engine audio_url st
    = (Api.HTTPException 400 "AudioDownloadError"
         "Invalid URL: must use http or https protocol", st).
Proof.
  intros Hvalid Hhttp Hhttps.
  unfold Api.predict_voice, Inference.predict, AudioUtils.process_audio_from_url,
    AudioUtils.download_audio.
  rewrite Hvalid, Hhttp, Hhttps. reflexivity.
Qed.

(** X25. An engine whose model is not trained answers 500
    "InternalServerError" to every request whose audio was fetched, decoded
    and analysed, and the scratch file is removed all the same. *)
Theorem untrained_model_is_answered_500
    (engine : Inference.t) (audio_url : string) (st st' : AudioUtils.os_state)
    (audio : list Q) (sr : Z) (temp_path : string) (features : list float) :
  Validation.validate_url audio_url = Ok true ->
  AudioUtils.process_audio_from_url audio_url st = (Ok (audio, sr, temp_path), st') ->
  FeatureExtractor.extract_features (Inference.feature_extractor engine) audio sr
    = Ok features ->
  Classifier.trained (Inference.model engine) = false ->
  truthy temp_path = true ->
  (Api.predict_voice engine audio_url st).1
    = Api.HTTPException 500 "InternalServerError"
        "Unexpected error: Model not trained. Load a trained model first." /\
  AudioUtils.files (Api.predict_voice engine audio_url st).2 !! temp_path = None.
Proof.
  intros Hvalid Hproc Hfe Huntrained Htruthy.
  unfold Api.predict_voice, Inference.predict. rewrite Hvalid, Hproc.
  unfold Inference.classify_and_explain. rewrite Hfe. cbn [mbind result_bind bind].
  unfold Classifier.predict. rewrite Huntrained. cbn [negb mbind result_bind bind].
  rewrite Htruthy. cbn [fst snd]. split; [reflexivity|]. apply cleanup_removes.
Qed.

End Route.

Lemma acquisition_failures_are_answered_400_witness :
  @Api.predict_voice
      (Scenario.externals [AudioUtils.Chunk 4096] (Z.to_nat 3200))
      Scenario.signal_lib Scenario.sklearn Scenario.builtins
      (Scenario.engine 1 0.9) "https://example.com/a.wav" Scenario.idle
    = (Api.HTTPException 400 "AudioDownloadError"
         (str (AudioDownloadError
                 "Failed to load audio: Audio too short: minimum 0.5 seconds required")),
       {| AudioUtils.files := delete Scenario.temp_path {[ Scenario.temp_path := 4096%N ]};
          AudioUtils.fetched := ["https://example.com/a.wav"] |}).
Proof.
  apply (@acquisition_failures_are_answered_400
           (Scenario.externals [AudioUtils.Chunk 4096] (Z.to_nat 3200))
           Scenario.signal_lib Scenario.sklearn Scenario.builtins).
  - vm_compute. reflexivity.
  - vm_compute. reflexivity.
Defined.

Lemma accepted_url_with_other_spelling_is_answered_400_witness :
  @Api.predict_voice
      (Scenario.externals [AudioUtils.Chunk 4096] (Z.to_nat 8000))
      Scenario.signal_lib Scenario.sklearn Scenario.builtins
      (Scenario.engine 1 0.9) "HTTPS://Example.com/a.wav" Scenario.idle
    = (Api.HTTPException 400 "AudioDownloadError"
         "Invalid URL: must use http or https protocol", Scenario.idle).
Proof.
  apply (@accepted_url_with_other_spelling_is_answered_400
           (Scenario.externals [AudioUtils.Chunk 4096] (Z.to_nat 8000))
           Scenario.signal_lib Scenario.sklearn Scenario.builtins);
    vm_compute; reflexivity.
Defined.

Lemma untrained_model_is_answered_500_witness :
  let engine :=
    {| Inference.model := @Classifier.new Scenario.sklearn;
       Inference.feature_extractor := FeatureExtractor.default |} in
  let answer :=
    @Api.predict_voice
      (Scenario.externals [AudioUtils.Chunk 4096] (Z.to_nat 8000))
      Scenario.signal_lib Scenario.sklearn Scenario.builtins
      engine "https://example.com/a.wav" Scenario.idle in
  answer.1 = Api.HTTPException 500 "InternalServerError"
               "Unexpected error: Model not trained. Load a trained model first." /\
  AudioUtils.files answer.2 !! Scenario.temp_path = None.
Proof.
  intros engine answer.
  eapply (@untrained_model_is_answered_500
            (Scenario.externals [AudioUtils.Chunk 4096] (Z.to_nat 8000))
            Scenario.signal_lib Scenario.sklearn Scenario.builtins
            engine "https://example.com/a.wav" Scenario.idle).
  - vm_compute. reflexivity.
  - vm_compute. reflexivity.
  - vm_compute. reflexivity.
  - reflexivity.
  - reflexivity.
Defined.

(** ** The feature names are pairwise distinct *)

Lemma list_ascii_of_string_app (a b : string) :
  list_ascii_of_string (a +:+ b) = list_ascii_of_string a ++ list_ascii_of_string b.
Proof. induction a as [|c a IH]; [reflexivity|]. simpl. rewrite IH. reflexivity. Qed.

Lemma list_ascii_of_string_inj (a b : string) :
  list_ascii_of_string a = list_ascii_of_string b -> a = b.
Proof.
  intros Heq. rewrite <- (string_of_list_ascii_of_string a),
    <- (string_of_list_ascii_of_string b), Heq. reflexivity.
Qed.

(** A statistic's name determines the row and the statistic: the four
    suffixes differ within their last two characters. *)
Lemma stat_name_inj (base1 base2 suffix1 suffix2 : string) :
  suffix1 ∈ ["_mean"; "_std"; "_min"; "_max"] ->
  suffix2 ∈ ["_mean"; "_std"; "_min"; "_max"] ->
  base1 +:+ suffix1 = base2 +:+ suffix2 ->
  base1 = base2 /\ suffix1 = suffix2.
Proof.
  intros H1 H2 Heq.
  apply (f_equal list_ascii_of_string) in Heq.
  rewrite !list_ascii_of_string_app in Heq.
  apply (f_equal (@rev ascii)) in Heq. rewrite !rev_app_distr in Heq.
  repeat (apply elem_of_cons in H1; destruct H1 as [->|H1]);
    try (apply elem_of_nil in H1; contradiction);
    repeat (apply elem_of_cons in H2; destruct H2 as [->|H2]);
    try (apply elem_of_nil in H2; contradiction);
    cbn in Heq; try discriminate;
    (split; [|reflexivity]);
    injection Heq as Heq;
    apply list_ascii_of_string_inj;
    rewrite <- (rev_involutive (list_ascii_of_string base1)),
      <- (rev_involutive (list_ascii_of_string base2)), Heq; reflexivity.
Qed.

Lemma stat_names_elem (base name : string) :
  name ∈ FeatureExtractor.stat_names base ->
  exists suffix, suffix ∈ ["_mean"; "_std"; "_min"; "_max"] /\ name = base +:+ suffix.
Proof.
  unfold FeatureExtractor.stat_names. intros Hin.
  repeat (apply elem_of_cons in Hin; destruct Hin as [->|Hin]);
    try (apply elem_of_nil in Hin; contradiction);
    eexists; (split; [|reflexivity]); set_solver.
Qed.

Lemma stat_names_NoDup (base : string) : NoDup (FeatureExtractor.stat_names base).
Proof.
  assert (Hne : forall s1 s2,
            s1 ∈ ["_mean"; "_std"; "_min"; "_max"] ->
            s2 ∈ ["_mean"; "_std"; "_min"; "_max"] ->
            s1 <> s2 -> base +:+ s1 <> base +:+ s2).
  { intros s1 s2 H1 H2 Hdiff Heq.
    destruct (stat_name_inj base base s1 s2 H1 H2 Heq) as [_ Hs]. contradiction. }
  unfold FeatureExtractor.stat_names.
  repeat (apply NoDup_cons; split);
    try apply NoDup_nil_2;
    rewrite ?not_elem_of_cons; repeat split;
    try apply not_elem_of_nil;
    apply Hne; (set_solver || discriminate).
Qed.

Lemma map_fmap {A B : Type} (f : A -> B) (l : list A) : map f l = f <$> l.
Proof. induction l as [|a l IH]; [reflexivity|]. cbn. rewrite IH. reflexivity. Qed.

Lemma flat_map_bind {A B : Type} (f : A -> list B) (l : list A) :
  flat_map f l = l ≫= f.
Proof. induction l as [|a l IH]; [reflexivity|]. cbn. rewrite IH. reflexivity. Qed.

Lemma flat_map_of_map {A B C : Type} (g : B -> list C) (h : A -> B) (l : list A) :
  flat_map (fun a => g (h a)) l = flat_map g (map h l).
Proof. induction l as [|a l IH]; [reflexivity|]. cbn. rewrite IH. reflexivity. Qed.

Lemma stat_names_flat_map_NoDup (bases : list string) :
  NoDup bases -> NoDup (flat_map FeatureExtractor.stat_names bases).
Proof.
  intros Hbases. rewrite flat_map_bind. apply NoDup_bind; [| |exact Hbases].
  - intros b1 b2 name _ _ Hin1 Hin2.
    apply stat_names_elem in Hin1, Hin2.
    destruct Hin1 as (s1 & Hs1 & ->), Hin2 as (s2 & Hs2 & Heq).
    apply (stat_name_inj b1 b2 s1 s2 Hs1 Hs2 Heq).
  - intros base _. apply stat_names_NoDup.
Qed.

(** X26. For every extractor, whatever its number of MFCC coefficients,
    the names [get_feature_names] returns are pairwise distinct: a
    dictionary keyed by them, as [get_feature_importance] builds, loses no
    feature. *)
Theorem feature_names_are_distinct (self : FeatureExtractor.t) :
  NoDup (FeatureExtractor.get_feature_names self).
Proof.
  unfold FeatureExtractor.get_feature_names. cbn zeta. rewrite app_nil_l.
  rewrite (flat_map_of_map FeatureExtractor.stat_names (fun i : nat => "mfcc_" +:+ pretty i)).
  rewrite (flat_map_of_map FeatureExtractor.stat_names (fun i : nat => "chroma_" +:+ pretty i)).
  rewrite <- !flat_map_app.
  apply stat_names_flat_map_NoDup.
  rewrite <- ?app_assoc.
  apply NoDup_app. split; [|split].
  - assert (Hinj : Inj (=) (=) (fun i : nat => "mfcc_" +:+ pretty i)).
    { intros i j Heq. apply (inj (String.app "mfcc_")) in Heq.
      apply (inj pretty) in Heq. exact Heq. }
    rewrite map_fmap. apply (NoDup_fmap_2 _). apply NoDup_seq.
  - intros base Hmfcc Hother.
    rewrite map_fmap in Hmfcc.
    apply list_elem_of_fmap in Hmfcc. destruct Hmfcc as (i & -> & _).
    revert Hother. generalize (pretty i). intros digits Hother.
    vm_compute in Hother.
    repeat (apply elem_of_cons in Hother; destruct Hother as [Hother|Hother];
            [discriminate|]).
    apply elem_of_nil in Hother. contradiction.
  - vm_compute. repeat (apply NoDup_cons; split; [|]);
      try apply NoDup_nil_2;
      rewrite ?not_elem_of_cons; repeat split;
      try apply not_elem_of_nil; discriminate.
Qed.
